(** * foremast.configs.prepare_configs

    A shallow embedding of [src/foremast/configs/prepare_configs.py]:
    [process_git_configs] (application configurations fetched from GitLab)
    and [process_runway_configs] (the same files read from a directory).

    Python values are the inductive type [json]; a [dict] is a [gmap] with
    string keys, so that equality of dictionaries ignores insertion order,
    as [==] does in Python.  The three ways a call can end (a returned value,
    [SystemExit] with a message, any other exception) are the type
    [outcome]; the code runs in a small monad that threads the outcome and
    the ordered log of the files opened and of the requests sent to GitLab. *)

From Stdlib Require Import Ascii String.
From stdpp Require Import gmap strings list fin_maps.


(** ** Python values *)

(** Values produced by [json.loads] and by the GitLab client.  Numbers are
    integers; the code under study never inspects a number. *)
#[warnings="-register-all"]
Inductive json : Type :=
  | JNull
  | JBool (b : bool)
  | JNum (n : Z)
  | JStr (s : string)
  | JArr (l : list json)
  | JObj (m : gmap string json).

(** The exceptions the code can meet, as far as its [except] clauses tell
    them apart. *)
Inductive exn : Type :=
  | FileNotFoundError
  | PermissionError
  | IsADirectoryError
  | OSError
  | ConnectionError
  | UnicodeDecodeError
  | JSONDecodeError
  | BinasciiError
  | TypeError
  | KeyError.

(** [isinstance(e, FileNotFoundError)]. *)
Definition is_FileNotFoundError (e : exn) : bool :=
  match e with FileNotFoundError => true | _ => false end.

(** [isinstance(e, ValueError)]: [UnicodeDecodeError],
    [json.JSONDecodeError] and [binascii.Error] derive from [ValueError]. *)
Definition is_ValueError (e : exn) : bool :=
  match e with
  | UnicodeDecodeError | JSONDecodeError | BinasciiError => true
  | _ => false
  end.

(** [bool(v)]. *)
Definition truthy (v : json) : bool :=
  match v with
  | JNull => false
  | JBool b => b
  | JNum n => negb (n =? 0)%Z
  | JStr s => negb (String.eqb s "")
  | JArr l => negb (Nat.eqb (length l) 0)
  | JObj m => negb (Nat.eqb (size m) 0)
  end.

(** [v[k]] for a string [k]. *)
Definition py_getitem (v : json) (k : string) : exn + json :=
  match v with
  | JObj m => match m !! k with Some x => inr x | None => inl KeyError end
  | _ => inl TypeError
  end.

(** [v[k] = x] for a string [k]; the dictionary is updated in place, so the
    new value stands for the same object afterwards. *)
Definition py_setitem (v : json) (k : string) (x : json) : exn + json :=
  match v with
  | JObj m => inr (JObj (<[k := x]> m))
  | _ => inl TypeError
  end.

(** [d[k]] on a [collections.defaultdict(dict)]: a missing key is created
    with a new empty dictionary. *)
Definition defaultdict_getitem (d : gmap string json) (k : string)
  : json * gmap string json :=
  match d !! k with
  | Some v => (v, d)
  | None => (JObj ∅, <[k := JObj ∅]> d)
  end.

(** ** Strings *)

(** The double quote character as a one-character string. *)
Definition dq : string := String (Ascii.ascii_of_nat 34) EmptyString.

(** [c.isspace()] for a character below 256. *)
Definition is_space (c : ascii) : bool :=
  let n := Ascii.nat_of_ascii c in
  (((9 <=? n) && (n <=? 13)) || ((28 <=? n) && (n <=? 32))
   || (n =? 133) || (n =? 160))%nat.

(** [s.lstrip()]. *)
Fixpoint lstrip (s : string) : string :=
  match s with
  | EmptyString => EmptyString
  | String c r => if is_space c then lstrip r else s
  end.

(** [s.rstrip()]. *)
Fixpoint rstrip (s : string) : string :=
  match s with
  | EmptyString => EmptyString
  | String c r =>
      match rstrip r with
      | EmptyString => if is_space c then EmptyString else String c EmptyString
      | r' => String c r'
      end
  end.

(** [s.strip()]. *)
Definition strip (s : string) : string := rstrip (lstrip s).

(** The first line of a text, without its line end. *)
Fixpoint first_line (s : string) : string :=
  match s with
  | EmptyString => EmptyString
  | String c r =>
      if Ascii.eqb c (Ascii.ascii_of_nat 10) then EmptyString
      else String c (first_line r)
  end.

(** What follows the first line end of a text. *)
Fixpoint after_first_line (s : string) : string :=
  match s with
  | EmptyString => EmptyString
  | String c r =>
      if Ascii.eqb c (Ascii.ascii_of_nat 10) then r else after_first_line r
  end.

(** Whether every character of [s] is whitespace. *)
Fixpoint all_space (s : string) : bool :=
  match s with
  | EmptyString => true
  | String c r => is_space c && all_space r
  end.

(** [s.startswith(p)]. *)
Fixpoint startswith (p s : string) : bool :=
  match p, s with
  | EmptyString, _ => true
  | String a p', String b s' => Ascii.eqb a b && startswith p' s'
  | String _ _, EmptyString => false
  end.

(** [s.endswith("/")]. *)
Fixpoint ends_with_slash (s : string) : bool :=
  match s with
  | EmptyString => false
  | String c EmptyString => Ascii.eqb c "/"%char
  | String _ r => ends_with_slash r
  end.

(** [os.path.join(a, b)] of [posixpath]. *)
Definition path_join (a b : string) : string :=
  if startswith "/" b then b
  else if String.eqb a "" || ends_with_slash a then a +:+ b
  else a +:+ "/" +:+ b.

(** ** Module constants *)

Definition ENVS : list string :=
  ["build"; "dev"; "stage"; "prod"; "prodp"; "stagepci"; "prods"; "stagesox"].

(** [JSON_ERROR_MSG.format(name)]. *)
Definition JSON_ERROR_MSG (name : string) : string :=
  dq +:+ name +:+ dq
  +:+ " appears to be invalid json. Please validate it with http://jsonlint.com.".

(** The message of the [SystemExit] raised for a missing token file. *)
Definition TOKEN_MISSING_MSG (token_file : string) : string :=
  "GitLab private token file missing: " +:+ token_file.

(** The pipeline configuration used when [pipeline.json] is missing. *)
Definition default_pipeline : json :=
  JObj {[ "env" := JArr [JStr "stage"; JStr "prod"] ]}.

(** ** Outcomes, events and the monad *)

Inductive outcome (A : Type) : Type :=
  | Return (a : A)
  | SystemExit (msg : string)
  | Raise (e : exn).
Arguments Return {A} a.
Arguments SystemExit {A} msg.
Arguments Raise {A} e.

(** The object built by [gitlab.Gitlab(GIT_URL, token=token)]. *)
Record Gitlab : Type := { host : string; token : string }.

(** The three methods of the client the code calls. *)
Inductive request : Type :=
  | GetProject (git_short : string)
  | GetFile (project_id : json) (path ref : string)
  | GetBranch (project_id : json) (ref : string).

Inductive event : Type :=
  | Open (path : string)
  | Net (server : Gitlab) (req : request).

(** The surroundings of a call: what opening and reading a file gives, and
    what the service answers to a request (the client returns [False] for a
    failed request, and may raise). *)
Record world : Type := {
  fs : string → exn + string;
  remote : Gitlab → request → exn + json
}.

Definition M (A : Type) : Type := list event → outcome A * list event.

Definition ret {A} (a : A) : M A := λ t, (Return a, t).

Definition bind {A B} (m : M A) (f : A → M B) : M B :=
  λ t, match m t with
       | (Return a, t') => f a t'
       | (SystemExit msg, t') => (SystemExit msg, t')
       | (Raise e, t') => (Raise e, t')
       end.

Definition emit (e : event) : M unit := λ t, (Return tt, t ++ [e]).

Definition sys_exit {A} (msg : string) : M A := λ t, (SystemExit msg, t).

Definition lift {A} (r : exn + A) : M A :=
  λ t, match r with inr a => (Return a, t) | inl e => (Raise e, t) end.

(** [try: m except ...]: [handler e] is the body of the first clause that
    matches [e], if any.  [SystemExit] is not an [Exception] and passes. *)
Definition try_except {A} (m : M A) (handler : exn → option (M A)) : M A :=
  λ t, match m t with
       | (Raise e, t') =>
           match handler e with
           | Some h => h t'
           | None => (Raise e, t')
           end
       | r => r
       end.

Notation "'let*' x ':=' m 'in' k" := (bind m (λ x, k))
  (at level 10, x name, m at level 100, k at level 200,
   format "'[v' 'let*'  x  :=  m  'in'  '/' k ']'").

(** [for x in l: s = body(s, x)]. *)
Fixpoint for_each {A S} (l : list A) (body : S → A → M S) (s : S) : M S :=
  match l with
  | [] => ret s
  | x :: r => let* s' := body s x in for_each r body s'
  end.

(** [m] only adds events that satisfy [P] to the log. *)
Definition emits {A} (P : event → Prop) (m : M A) : Prop :=
  ∀ t, ∃ t', (m t).2 = t ++ t' ∧ Forall P t'.

(** ** The state of a tracked file *)

(** What the surroundings hold for one of the nine files the code looks
    for: nothing, a document that parses to [v], a document that does not
    parse, or a failure [e] to get at the document at all. *)
Inductive file_status : Type :=
  | Absent
  | Valid (v : json)
  | Malformed
  | Broken (e : exn).

(** The file is missing or holds valid JSON. *)
Definition readable (s : file_status) : bool :=
  match s with Absent | Valid _ => true | Malformed | Broken _ => false end.

(** How a step that looks for one file ends: [absent] is what a missing
    file does to the bundle, [key] the key a parsed document is stored at,
    [name] the file name put in the message. *)
Definition settle (name key : string)
    (absent : gmap string json → gmap string json)
    (app_configs : gmap string json) (s : file_status)
  : outcome (gmap string json) :=
  match s with
  | Absent => Return (absent app_configs)
  | Valid v => Return (<[key := v]> app_configs)
  | Malformed => SystemExit (JSON_ERROR_MSG name)
  | Broken e => Raise e
  end.

(** ** The two functions *)

(** What the module imports: [foremast.consts.GIT_URL], and the library
    functions [b64decode] ([None] for [binascii.Error]), [bytes.decode]
    ([None] for [UnicodeDecodeError]) and [json.loads] ([None] for
    [json.JSONDecodeError]). *)
Class Library : Type := {
  GIT_URL : string;
  b64decode : string → option (list Byte.byte);
  decode : list Byte.byte → option string;
  json_loads : string → option json
}.

Section Prepare.

Context `{Library} (w : world).

(** [b64decode(v)]: only strings are accepted. *)
Definition py_b64decode (v : json) : exn + list Byte.byte :=
  match v with
  | JStr s => match b64decode s with Some b => inr b | None => inl BinasciiError end
  | _ => inl TypeError
  end.

(** [json.loads(text)]. *)
Definition py_loads (text : string) : exn + json :=
  match json_loads text with Some v => inr v | None => inl JSONDecodeError end.

(** [json.loads(b.decode())]. *)
Definition loads_bytes (b : list Byte.byte) : exn + json :=
  match decode b with
  | Some text => py_loads text
  | None => inl UnicodeDecodeError
  end.

(** [with open(path) as h: h.read()]. *)
Definition open_read (path : string) : M string :=
  let* _ := emit (Open path) in lift (fs w path).

(** One method call on the client. *)
Definition call (server : Gitlab) (req : request) : M json :=
  let* _ := emit (Net server req) in lift (remote w server req).

Definition getitem (v : json) (k : string) : M json := lift (py_getitem v k).

(** The clause [except ValueError: raise SystemExit(JSON_ERROR_MSG.format(name))]. *)
Definition on_ValueError {A} (name : string) (e : exn) : option (M A) :=
  if is_ValueError e then Some (sys_exit (JSON_ERROR_MSG name)) else None.

(** Lines 32-37. *)
Definition read_token (token_file : string) : M string :=
  try_except
    (let* text := open_read token_file in ret (strip text))
    (λ e, if is_FileNotFoundError e
          then Some (sys_exit (TOKEN_MISSING_MSG token_file))
          else None).

Definition app_json (env : string) : string :=
  "runway/application-master-" +:+ env +:+ ".json".

(** The body of the loop of lines 44-62. *)
Definition git_env_step (server : Gitlab) (project_id : json)
    (app_configs : gmap string json) (env : string) : M (gmap string json) :=
  let* file_blob := call server (GetFile project_id (app_json env) "master") in
  if negb (truthy file_blob) then ret app_configs
  else
    let* content := getitem file_blob "content" in
    let* file_contents := lift (py_b64decode content) in
    try_except
      (let* v := lift (loads_bytes file_contents) in ret (<[env := v]> app_configs))
      (on_ValueError (app_json env)).

Definition pipeline_json : string := "runway/pipeline.json".

(** Lines 64-81. *)
Definition git_pipeline (server : Gitlab) (project_id : json)
    (app_configs : gmap string json) : M (gmap string json) :=
  let* pipeline_blob := call server (GetFile project_id pipeline_json "master") in
  if negb (truthy pipeline_blob)
  then ret (<["pipeline" := default_pipeline]> app_configs)
  else
    let* content := getitem pipeline_blob "content" in
    let* pipeline_contents := lift (py_b64decode content) in
    try_except
      (let* v := lift (loads_bytes pipeline_contents) in
       ret (<["pipeline" := v]> app_configs))
      (on_ValueError pipeline_json).

(** Lines 83-85. *)
Definition git_commit (server : Gitlab) (project_id : json)
    (app_configs : gmap string json) : M (gmap string json) :=
  let* branch := call server (GetBranch project_id "master") in
  let* commit := getitem branch "commit" in
  let* config_commit := getitem commit "id" in
  let '(pipeline, app_configs) := defaultdict_getitem app_configs "pipeline" in
  let* pipeline := lift (py_setitem pipeline "config_commit" config_commit) in
  ret (<["pipeline" := pipeline]> app_configs).

Definition process_git_configs (git_short token_file : string)
  : M (gmap string json) :=
  let* token := read_token token_file in
  let server := {| host := GIT_URL; token := token |} in
  let* project := call server (GetProject git_short) in
  let* project_id := getitem project "id" in
  let* app_configs := for_each ENVS (git_env_step server project_id) ∅ in
  let* app_configs := git_pipeline server project_id app_configs in
  git_commit server project_id app_configs.

Definition file_json (env : string) : string :=
  "application-master-" +:+ env +:+ ".json".

(** The body of the loop of lines 104-119. *)
Definition runway_env_step (runway_dir : string)
    (app_configs : gmap string json) (env : string) : M (gmap string json) :=
  let file_name := path_join runway_dir (file_json env) in
  try_except
    (let* text := open_read file_name in
     let* v := lift (py_loads text) in
     ret (<[env := v]> app_configs))
    (λ e, if is_FileNotFoundError e then Some (ret app_configs)
          else on_ValueError (file_json env) e).

(** Lines 121-132. *)
Definition runway_pipeline (runway_dir : string)
    (app_configs : gmap string json) : M (gmap string json) :=
  let pipeline_file := path_join runway_dir "pipeline.json" in
  try_except
    (let* text := open_read pipeline_file in
     let* v := lift (py_loads text) in
     ret (<["pipeline" := v]> app_configs))
    (λ e, if is_FileNotFoundError e
          then Some (ret (<["pipeline" := default_pipeline]> app_configs))
          else on_ValueError pipeline_file e).

Definition process_runway_configs (runway_dir : string)
  : M (gmap string json) :=
  let* app_configs := for_each ENVS (runway_env_step runway_dir) ∅ in
  runway_pipeline runway_dir app_configs.

(** *** What the surroundings hold *)

(** The state of [path] on the [master] branch of the project, as the
    client reports it: a falsy answer is a missing file. *)
Definition git_file_status (server : Gitlab) (project_id : json)
    (path : string) : file_status :=
  match remote w server (GetFile project_id path "master") with
  | inl e => Broken e
  | inr file_blob =>
      if truthy file_blob then
        match py_getitem file_blob "content" with
        | inl e => Broken e
        | inr content =>
            match py_b64decode content with
            | inl e => Broken e
            | inr b =>
                match decode b with
                | None => Malformed
                | Some text =>
                    match json_loads text with
                    | Some v => Valid v
                    | None => Malformed
                    end
                end
            end
        end
      else Absent
  end.

(** The state of the local file [path]; a file that cannot be decoded as
    text is malformed. *)
Definition local_file_status (path : string) : file_status :=
  match fs w path with
  | inl e =>
      if is_FileNotFoundError e then Absent
      else if is_ValueError e then Malformed
      else Broken e
  | inr text =>
      match json_loads text with
      | Some v => Valid v
      | None => Malformed
      end
  end.

(** The client built from the text of the token file. *)
Definition git_server (text : string) : Gitlab :=
  {| host := GIT_URL; token := strip text |}.

(** The project identifier the service gives for [git_short]. *)
Definition git_project (server : Gitlab) (git_short : string) : exn + json :=
  match remote w server (GetProject git_short) with
  | inl e => inl e
  | inr project => py_getitem project "id"
  end.

(** The commit identifier the service gives for the [master] branch. *)
Definition master_commit (server : Gitlab) (project_id : json) : exn + json :=
  match remote w server (GetBranch project_id "master") with
  | inl e => inl e
  | inr branch =>
      match py_getitem branch "commit" with
      | inl e => inl e
      | inr commit => py_getitem commit "id"
      end
  end.

(** The nine files of each mode in the order the code visits them, each
    with its state and the name the code gives it in messages. *)
Definition git_tracked (server : Gitlab) (project_id : json)
  : list (file_status * string) :=
  ((λ env, (git_file_status server project_id (app_json env), app_json env))
     <$> ENVS)
  ++ [(git_file_status server project_id pipeline_json, pipeline_json)].

Definition runway_tracked (runway_dir : string) : list (file_status * string) :=
  ((λ env, (local_file_status (path_join runway_dir (file_json env)),
            file_json env)) <$> ENVS)
  ++ [(local_file_status (path_join runway_dir "pipeline.json"),
       path_join runway_dir "pipeline.json")].

End Prepare.

(** ** Concrete surroundings for the examples *)

Module Demo.

(** Documents used in the examples. *)
Definition txt_prod : string :=
  "{" +:+ dq +:+ "instance_type" +:+ dq +:+ ": " +:+ dq +:+ "m5.large" +:+ dq +:+ "}".
Definition txt_pipe : string :=
  "{" +:+ dq +:+ "env" +:+ dq +:+ ": [" +:+ dq +:+ "stage" +:+ dq +:+ "]}".
Definition txt_pipe_commit : string :=
  "{" +:+ dq +:+ "env" +:+ dq +:+ ": [" +:+ dq +:+ "stage" +:+ dq +:+ "], "
  +:+ dq +:+ "config_commit" +:+ dq +:+ ": " +:+ dq +:+ "abc" +:+ dq +:+ "}".
Definition nl : string := String (Ascii.ascii_of_nat 10) EmptyString.
Definition txt_list : string := "[1]".
Definition txt_bad : string := "[1".

Definition val_prod : json := JObj {[ "instance_type" := JStr "m5.large" ]}.
Definition val_pipe : json := JObj {[ "env" := JArr [JStr "stage"] ]}.
Definition val_pipe_commit : json :=
  JObj {[ "env" := JArr [JStr "stage"]; "config_commit" := JStr "abc" ]}.
Definition val_list : json := JArr [JNum 1].

(** [json.loads] on the documents above; any other text is taken as
    malformed. *)
Definition loads (text : string) : option json :=
  if String.eqb text txt_prod then Some val_prod
  else if String.eqb text txt_pipe then Some val_pipe
  else if String.eqb text txt_pipe_commit then Some val_pipe_commit
  else if String.eqb text txt_list then Some val_list
  else None.

(** [b64decode] on the encodings of these documents, and of the two bytes
    [ff fe], which are not UTF-8. *)
Definition unbase64 (s : string) : option (list Byte.byte) :=
  if String.eqb s "eyJpbnN0YW5jZV90eXBlIjogIm01LmxhcmdlIn0="
  then Some (list_byte_of_string txt_prod)
  else if String.eqb s "eyJlbnYiOiBbInN0YWdlIl19"
  then Some (list_byte_of_string txt_pipe)
  else if String.eqb s "WzFd" then Some (list_byte_of_string txt_list)
  else if String.eqb s "WzE=" then Some (list_byte_of_string txt_bad)
  else if String.eqb s "//4=" then Some [Byte.xff; Byte.xfe]
  else None.

(** [bytes.decode] on ASCII. *)
Definition ascii_decode (b : list Byte.byte) : option string :=
  if forallb (λ x, Nat.ltb (Byte.to_nat x) 128) b
  then Some (string_of_list_byte b) else None.

Definition library : Library :=
  {| GIT_URL := "https://gitlab.example.com";
     b64decode := unbase64;
     decode := ascii_decode;
     json_loads := loads |}.

Definition token_path : string := "/etc/gitlab.token".

(** A file response of the client. *)
Definition blob (content : string) : json := JObj {[ "content" := JStr content ]}.

(** A GitLab that knows the project [forrest/core] under the identifier 7,
    whose [master] is at commit [abc123] and whose files are [files]; it
    answers [False] to any other token or project. *)
Definition gitlab_world (token_text : exn + string) (files : string → json)
  : world :=
  {| fs := λ path, if String.eqb path token_path then token_text
                   else inl FileNotFoundError;
     remote := λ server req,
       if negb (String.eqb (token server) "s3cr3t") then inr (JBool false)
       else match req with
            | GetProject name =>
                inr (if String.eqb name "forrest/core"
                     then JObj {[ "id" := JNum 7 ]} else JBool false)
            | GetFile _ path _ => inr (files path)
            | GetBranch _ _ =>
                inr (JObj {[ "commit" := JObj {[ "id" := JStr "abc123" ]} ]})
            end |}.

(** Only [runway/application-master-prod.json] exists, next to [pipeline]
    (the answer for [runway/pipeline.json]). *)
Definition prod_only (pipeline : json) (path : string) : json :=
  if String.eqb path "runway/application-master-prod.json"
  then blob "eyJpbnN0YW5jZV90eXBlIjogIm01LmxhcmdlIn0="
  else if String.eqb path "runway/pipeline.json" then pipeline
  else JBool false.

(** A directory [runway] where opening [application-master-prod.json]
    gives [prod], opening [pipeline.json] gives [pipeline], and nothing
    else exists. *)
Definition runway_world (prod pipeline : exn + string) : world :=
  {| fs := λ path,
       if String.eqb path "runway/application-master-prod.json" then prod
       else if String.eqb path "runway/pipeline.json" then pipeline
       else inl FileNotFoundError;
     remote := λ _ _, inl ConnectionError |}.

(** The token file holds the token and a line end. *)
Definition w_prod : world :=
  gitlab_world (inr ("s3cr3t" +:+ nl)) (prod_only (JBool false)).
(** [runway/pipeline.json] holds the list [[1]]. *)
Definition w_pipeline_list : world :=
  gitlab_world (inr ("s3cr3t" +:+ nl)) (prod_only (blob "WzFd")).
(** [runway/pipeline.json] holds the malformed text [[1]. *)
Definition w_pipeline_bad : world :=
  gitlab_world (inr ("s3cr3t" +:+ nl)) (prod_only (blob "WzE=")).
(** There is no token file. *)
Definition w_no_token : world :=
  gitlab_world (inl FileNotFoundError) (prod_only (JBool false)).
(** The token file may not be read. *)
Definition w_token_denied : world :=
  gitlab_world (inl PermissionError) (prod_only (JBool false)).
(** The token file has a second line. *)
Definition two_lines : string := "s3cr3t" +:+ nl +:+ "extra" +:+ nl.
Definition w_two_lines : world :=
  gitlab_world (inr two_lines) (prod_only (JBool false)).

(** No [pipeline.json]. *)
Definition r_default : world :=
  runway_world (inr txt_prod) (inl FileNotFoundError).
(** A [pipeline.json] with a [config_commit] key of its own. *)
Definition r_commit : world := runway_world (inr txt_prod) (inr txt_pipe_commit).
(** A malformed [pipeline.json]. *)
Definition r_pipeline_bad : world := runway_world (inr txt_prod) (inr txt_bad).
(** A malformed [application-master-prod.json]. *)
Definition r_prod_bad : world := runway_world (inr txt_bad) (inr txt_pipe).

(** [runway/pipeline.json] holds an object. *)
Definition w_pipeline_found : world :=
  gitlab_world (inr ("s3cr3t" +:+ nl)) (prod_only (blob "eyJlbnYiOiBbInN0YWdlIl19")).
(** Only [runway/application-master-prod.json] exists, with the given
    base64 content. *)
Definition w_prod_content (content : string) : world :=
  gitlab_world (inr ("s3cr3t" +:+ nl))
    (λ path, if String.eqb path "runway/application-master-prod.json"
             then blob content else JBool false).
(** The surroundings [wd] where the branch request is answered [False]. *)
Definition no_branch (wd : world) : world :=
  {| fs := fs wd;
     remote := λ server req,
       match req with
       | GetBranch _ _ => inr (JBool false)
       | _ => remote wd server req
       end |}.
(** The service of [wg] next to the files of [wr]; the token file is that
    of [wg]. *)
Definition runway_over_git (wg wr : world) : world :=
  {| fs := λ path, if String.eqb path token_path then fs wg path
                   else fs wr path;
     remote := remote wg |}.
(** [application-master-prod.json] may not be read. *)
Definition r_prod_denied : world :=
  runway_world (inl PermissionError) (inl FileNotFoundError).
(** [application-master-prod.json] is not valid text. *)
Definition r_prod_not_text : world :=
  runway_world (inl UnicodeDecodeError) (inl FileNotFoundError).
(** The bundle returned in [w_pipeline_found]. *)
Definition b_pipeline_found : gmap string json :=
  {[ "prod" := val_prod;
     "pipeline" := JObj {[ "env" := JArr [JStr "stage"];
                           "config_commit" := JStr "abc123" ]} ]}.

Definition git (wd : world) : outcome (gmap string json) * list event :=
  @process_git_configs library wd "forrest/core" token_path [].

Definition runway (wd : world) : outcome (gmap string json) * list event :=
  @process_runway_configs library wd "runway" [].

(** The bundles returned in [w_prod] and in [r_default]. *)
Definition b_git : gmap string json :=
  {[ "prod" := val_prod;
     "pipeline" := JObj {[ "env" := JArr [JStr "stage"; JStr "prod"];
                           "config_commit" := JStr "abc123" ]} ]}.
Definition b_runway : gmap string json :=
  {[ "prod" := val_prod;
     "pipeline" := JObj {[ "env" := JArr [JStr "stage"; JStr "prod"] ]} ]}.

End Demo.


(** * Properties *)

(** ** The monad *)

Lemma bind_Return_inv {A B} (m : M A) (f : A → M B) t b t' :
  bind m f t = (Return b, t') →
  ∃ a t1, m t = (Return a, t1) ∧ f a t1 = (Return b, t').
Proof.
  unfold bind. destruct (m t) as [[a | msg | e] t1]; intros H; try discriminate.
  by exists a, t1.
Qed.

Lemma bind_SystemExit_inv {A B} (m : M A) (f : A → M B) t msg t' :
  bind m f t = (SystemExit msg, t') →
  m t = (SystemExit msg, t') ∨
  ∃ a t1, m t = (Return a, t1) ∧ f a t1 = (SystemExit msg, t').
Proof.
  unfold bind. destruct (m t) as [[a | msg' | e] t1]; intros H; try discriminate.
  - right. by exists a, t1.
  - left. by injection H as -> ->.
Qed.

Lemma bind_step {A B} (m : M A) (f : A → M B) t a t1 :
  m t = (Return a, t1) → bind m f t = f a t1.
Proof. unfold bind. by intros ->. Qed.

Lemma bind_exit {A B} (m : M A) (f : A → M B) t msg t1 :
  m t = (SystemExit msg, t1) → bind m f t = (SystemExit msg, t1).
Proof. unfold bind. by intros ->. Qed.

Lemma emits_bind {A B} P (m : M A) (f : A → M B) :
  emits P m → (∀ a, emits P (f a)) → emits P (bind m f).
Proof.
  intros Hm Hf t. destruct (Hm t) as (t1 & Ht1 & HP1). unfold bind.
  destruct (m t) as [[a | msg | e] t0]; simpl in Ht1; subst t0;
    [ | by exists t1 .. ].
  destruct (Hf a (t ++ t1)) as (t2 & -> & HP2).
  exists (t1 ++ t2). split; [ by rewrite app_assoc | by apply Forall_app ].
Qed.

Lemma emits_for_each {A S} P (l : list A) (body : S → A → M S) s :
  (∀ s x, emits P (body s x)) → emits P (for_each l body s).
Proof.
  intros Hbody. revert s. induction l as [| x r IH]; intros s; simpl.
  - intros t. exists []. by rewrite app_nil_r.
  - apply emits_bind; auto.
Qed.

(** ** Stripping *)

Lemma all_space_lstrip s : all_space s = true → lstrip s = EmptyString.
Proof.
  induction s as [| c r IH]; simpl; [ done | ].
  intros [-> Hr]%andb_true_iff. auto.
Qed.

Lemma all_space_rstrip s : all_space s = true → rstrip s = EmptyString.
Proof.
  induction s as [| c r IH]; simpl; [ done | ].
  intros [-> Hr]%andb_true_iff. by rewrite IH.
Qed.

Lemma rstrip_first_line s :
  all_space (after_first_line s) = true → rstrip s = rstrip (first_line s).
Proof.
  induction s as [| c r IH]; simpl; [ done | ].
  destruct (Ascii.eqb c (ascii_of_nat 10)) eqn:Ec; simpl.
  - apply Ascii.eqb_eq in Ec as ->. intros Hr.
    by rewrite (all_space_rstrip r Hr).
  - intros Hr. by rewrite (IH Hr).
Qed.

Lemma strip_first_line s :
  all_space (after_first_line s) = true → strip s = strip (first_line s).
Proof.
  unfold strip. induction s as [| c r IH]; simpl; [ done | ].
  destruct (Ascii.eqb c (ascii_of_nat 10)) eqn:Ec; simpl.
  - apply Ascii.eqb_eq in Ec as ->. intros Hr. simpl.
    by rewrite (all_space_lstrip r Hr).
  - intros Hr. destruct (is_space c); [ auto | ].
    simpl. by rewrite (rstrip_first_line r Hr).
Qed.

(** ** Loops over files *)

Section Loop.

Variable status : string → file_status.
Variable name : string → string.
Variable ev : string → event.
Variable step : gmap string json → string → M (gmap string json).

Hypothesis step_spec : ∀ acc env t,
  step acc env t = (settle (name env) env id acc (status env), t ++ [ev env]).

(** When every file of the list is missing or valid the loop returns,
    having looked at each of them. *)
Lemma loop_readable l acc t :
  (∀ k, k ∈ l → readable (status k) = true) →
  ∃ acc', for_each l step acc t = (Return acc', t ++ map ev l).
Proof.
  revert acc t. induction l as [| x r IH]; intros acc t Hok; simpl.
  - exists acc. rewrite app_nil_r. reflexivity.
  - assert (Hx : readable (status x) = true) by (apply Hok; left).
    assert (Hr : ∀ k, k ∈ r → readable (status k) = true)
      by (intros k Hk; apply Hok; by right).
    pose proof (step_spec acc x t) as Hs.
    destruct (status x) as [| v | | e]; try discriminate; simpl in Hs;
      rewrite (bind_step _ _ _ _ _ Hs);
      [ destruct (IH acc (t ++ [ev x]) Hr) as [acc' ->]
      | destruct (IH (<[x := v]> acc) (t ++ [ev x]) Hr) as [acc' ->] ];
      exists acc'; by rewrite <- app_assoc.
Qed.

(** The loop stops at the first malformed file. *)
Lemma loop_first_malformed pre env post acc t :
  (∀ k, k ∈ pre → readable (status k) = true) →
  status env = Malformed →
  for_each (pre ++ env :: post) step acc t
  = (SystemExit (JSON_ERROR_MSG (name env)), t ++ map ev (pre ++ [env])).
Proof.
  revert acc t. induction pre as [| x r IH]; intros acc t Hok Hbad; simpl.
  - rewrite (bind_exit _ _ _ (JSON_ERROR_MSG (name env)) (t ++ [ev env]));
      [ done | by rewrite step_spec, Hbad ].
  - assert (Hx : readable (status x) = true) by (apply Hok; left).
    assert (Hr : ∀ k, k ∈ r → readable (status k) = true)
      by (intros k Hk; apply Hok; by right).
    pose proof (step_spec acc x t) as Hs.
    destruct (status x) as [| v | | e]; try discriminate; simpl in Hs;
      rewrite (bind_step _ _ _ _ _ Hs), IH by done;
      by rewrite <- app_assoc.
Qed.

(** A loop that returns has found every file missing or valid, and has
    stored exactly the valid ones. *)
Lemma loop_Return l acc t acc' t' :
  for_each l step acc t = (Return acc', t') →
  (∀ k, k ∈ l → readable (status k) = true) ∧
  (∀ k, acc' !! k =
        if decide (k ∈ l)
        then match status k with Valid v => Some v | _ => acc !! k end
        else acc !! k).
Proof.
  revert acc t. induction l as [| x r IH]; intros acc t H; simpl in H.
  - injection H as <- <-. split; [ by intros k Hk%elem_of_nil | ].
    intros k. destruct (decide (k ∈ [])) as [Hk%elem_of_nil | ]; done.
  - apply bind_Return_inv in H as (acc1 & t1 & Hs & Hloop).
    rewrite step_spec in Hs. apply IH in Hloop as [Hok Hlook].
    destruct (status x) as [| v | | e] eqn:Ex; try discriminate;
      simpl in Hs; injection Hs as Hacc _; subst acc1; unfold id in *.
    + split.
      { intros k [-> | Hk]%elem_of_cons; [ by rewrite Ex | auto ]. }
      intros k. rewrite Hlook.
      destruct (decide (k ∈ r)) as [Hr | Hr].
      * rewrite decide_True by (by right). done.
      * destruct (decide (k ∈ x :: r)) as [[-> | ?]%elem_of_cons | ];
          [ by rewrite Ex | done | done ].
    + split.
      { intros k [-> | Hk]%elem_of_cons; [ by rewrite Ex | auto ]. }
      intros k. rewrite Hlook.
      destruct (decide (k = x)) as [-> | Hne].
      * rewrite Ex, lookup_insert_eq, (decide_True _ _ (list_elem_of_here x r)).
        by destruct (decide (x ∈ r)).
      * rewrite lookup_insert_ne by done.
        destruct (decide (k ∈ r)) as [Hr | Hr].
        -- rewrite decide_True by (by right). done.
        -- rewrite decide_False; [ done | ].
           by intros [-> | ?]%elem_of_cons.
Qed.

(** The only [SystemExit] a loop ends with is the message for one of its
    files. *)
Lemma loop_SystemExit l acc t msg t' :
  for_each l step acc t = (SystemExit msg, t') →
  ∃ env, env ∈ l ∧ msg = JSON_ERROR_MSG (name env).
Proof.
  revert acc t. induction l as [| x r IH]; intros acc t H; simpl in H.
  - discriminate.
  - apply bind_SystemExit_inv in H as [Hs | (acc1 & t1 & _ & Hloop)].
    + rewrite step_spec in Hs. exists x. split; [ left | ].
      destruct (status x); simpl in Hs; congruence.
    + destruct (IH _ _ Hloop) as (env & Hin & ->). exists env.
      split; [ by right | done ].
Qed.

(** The loop followed by the steps [k], which look for one more file. *)
Variable pstatus : file_status.
Variable pname : string.
Variable k : gmap string json → M (gmap string json).

Hypothesis k_malformed : pstatus = Malformed →
  ∀ acc t, (k acc t).1 = SystemExit (JSON_ERROR_MSG pname).
Hypothesis k_Return : ∀ acc t b t',
  k acc t = (Return b, t') → readable pstatus = true.

Lemma tracked_split l (pre post : list (file_status * string)) y :
  ((λ env, (status env, name env)) <$> l) ++ [(pstatus, pname)]
  = pre ++ y :: post →
  (∃ l1 x l2, l = l1 ++ x :: l2
              ∧ pre = (λ env, (status env, name env)) <$> l1
              ∧ y = (status x, name x))
  ∨ (pre = (λ env, (status env, name env)) <$> l ∧ y = (pstatus, pname)).
Proof.
  intros [(m & Hl & Hm) | (m & Hpre & Hm)]%app_eq_inv.
  - destruct m as [| z m].
    + right. rewrite app_nil_r in Hl. simpl in Hm. by injection Hm as -> _.
    + left. injection Hm as <- _.
      apply fmap_app_inv in Hl as (l1 & l2' & -> & Hl2 & ->).
      symmetry in Hl2.
      apply fmap_cons_inv in Hl2 as (x & l2 & -> & _ & ->).
      by exists l1, x, l2.
  - symmetry in Hm. apply app_singleton in Hm as [[-> Hy] | [_ Hy]];
      [ | done ].
    right. rewrite app_nil_r in Hpre. by injection Hy as ->.
Qed.

(** The run stops at the first malformed file of the nine, with the
    message that names it. *)
Lemma tracked_first_malformed l pre n post acc t :
  ((λ env, (status env, name env)) <$> l) ++ [(pstatus, pname)]
  = pre ++ (Malformed, n) :: post →
  (∀ p, p ∈ pre → readable p.1 = true) →
  (bind (for_each l step acc) k t).1 = SystemExit (JSON_ERROR_MSG n).
Proof.
  intros [(l1 & x & l2 & -> & -> & [= Hx ->]) | [-> [= Hp ->]]]%tracked_split
    Hok.
  - rewrite (bind_exit _ _ _ (JSON_ERROR_MSG (name x))
               (t ++ map ev (l1 ++ [x]))); [ done | ].
    apply loop_first_malformed; [ | done ].
    intros env Henv.
    apply (Hok (status env, name env)).
    by apply (list_elem_of_fmap_2 (λ env, (status env, name env))).
  - destruct (loop_readable l acc t) as [acc' Hacc'].
    { intros env Henv. apply (Hok (status env, name env)).
      by apply (list_elem_of_fmap_2 (λ env, (status env, name env))). }
    rewrite (bind_step _ _ _ _ _ Hacc'). by apply k_malformed.
Qed.

(** A run that returns found each of the nine files missing or valid. *)
Lemma tracked_Return l acc t b t' :
  bind (for_each l step acc) k t = (Return b, t') →
  ∀ p, p ∈ ((λ env, (status env, name env)) <$> l) ++ [(pstatus, pname)] →
       readable p.1 = true.
Proof.
  intros (acc' & t1 & [Hok _]%loop_Return & Hk%k_Return)%bind_Return_inv p.
  intros [(env & -> & Henv)%list_elem_of_fmap | ->%list_elem_of_singleton]
    %elem_of_app; simpl; auto.
Qed.

End Loop.

Arguments loop_readable {status name ev step} step_spec.
Arguments loop_first_malformed {status name ev step} step_spec.
Arguments loop_Return {status name ev step} step_spec.
Arguments loop_SystemExit {status name ev step} step_spec.
Arguments tracked_first_malformed {status name ev step} step_spec
  {pstatus pname k} k_malformed.
Arguments tracked_Return {status name ev step} step_spec {pstatus pname k} k_Return.

(** ** The steps of the two functions *)

Section Steps.

Context `{Library} (w : world).

Lemma read_token_spec token_file t :
  read_token w token_file t
  = (match fs w token_file with
     | inr text => Return (strip text)
     | inl e => if is_FileNotFoundError e
                then SystemExit (TOKEN_MISSING_MSG token_file)
                else Raise e
     end, t ++ [Open token_file]).
Proof.
  unfold read_token, try_except, bind, open_read, emit, lift, ret, sys_exit.
  destruct (fs w token_file) as [e | text]; [ destruct e | ]; reflexivity.
Qed.

Lemma git_env_step_spec server project_id acc env t :
  git_env_step w server project_id acc env t
  = (settle (app_json env) env id acc
       (git_file_status w server project_id (app_json env)),
     t ++ [Net server (GetFile project_id (app_json env) "master")]).
Proof.
  unfold git_env_step, git_file_status, call, getitem,
    try_except, on_ValueError, loads_bytes, py_loads, bind, emit, lift, ret,
    sys_exit.
  destruct (remote w server _) as [e | file_blob]; [ done | ].
  destruct (truthy file_blob); simpl; [ | done ].
  destruct (py_getitem file_blob "content") as [e | content]; [ done | ].
  destruct (py_b64decode content) as [e | b]; [ done | ].
  destruct (decode b) as [text | ]; [ | done ].
  destruct (json_loads text); done.
Qed.

Lemma git_pipeline_spec server project_id acc t :
  git_pipeline w server project_id acc t
  = (settle pipeline_json "pipeline" (insert "pipeline" default_pipeline) acc
       (git_file_status w server project_id pipeline_json),
     t ++ [Net server (GetFile project_id pipeline_json "master")]).
Proof.
  unfold git_pipeline, git_file_status, call, getitem,
    try_except, on_ValueError, loads_bytes, py_loads, bind, emit, lift, ret,
    sys_exit.
  destruct (remote w server _) as [e | file_blob]; [ done | ].
  destruct (truthy file_blob); simpl; [ | done ].
  destruct (py_getitem file_blob "content") as [e | content]; [ done | ].
  destruct (py_b64decode content) as [e | b]; [ done | ].
  destruct (decode b) as [text | ]; [ | done ].
  destruct (json_loads text); done.
Qed.

Lemma git_commit_spec server project_id acc t :
  git_commit w server project_id acc t
  = (match master_commit w server project_id with
     | inl e => Raise e
     | inr config_commit =>
         let '(pipeline, acc') := defaultdict_getitem acc "pipeline" in
         match py_setitem pipeline "config_commit" config_commit with
         | inl e => Raise e
         | inr pipeline' => Return (<["pipeline" := pipeline']> acc')
         end
     end, t ++ [Net server (GetBranch project_id "master")]).
Proof.
  unfold git_commit, master_commit, call, getitem, bind, emit, lift, ret.
  destruct (remote w server _) as [e | branch]; [ done | ].
  destruct (py_getitem branch "commit") as [e | commit]; [ done | ].
  destruct (py_getitem commit "id") as [e | config_commit]; [ done | ].
  destruct (defaultdict_getitem acc "pipeline") as [pipeline acc'].
  destruct (py_setitem pipeline "config_commit" config_commit); done.
Qed.

Lemma runway_env_step_spec runway_dir acc env t :
  runway_env_step w runway_dir acc env t
  = (settle (file_json env) env id acc
       (local_file_status w (path_join runway_dir (file_json env))),
     t ++ [Open (path_join runway_dir (file_json env))]).
Proof.
  unfold runway_env_step, local_file_status, open_read,
    try_except, on_ValueError, py_loads, bind, emit, lift, ret, sys_exit.
  destruct (fs w _) as [e | text]; [ by destruct e | ].
  destruct (json_loads text); done.
Qed.

Lemma runway_pipeline_spec runway_dir acc t :
  runway_pipeline w runway_dir acc t
  = (settle (path_join runway_dir "pipeline.json") "pipeline"
       (insert "pipeline" default_pipeline) acc
       (local_file_status w (path_join runway_dir "pipeline.json")),
     t ++ [Open (path_join runway_dir "pipeline.json")]).
Proof.
  unfold runway_pipeline, local_file_status, open_read,
    try_except, on_ValueError, py_loads, bind, emit, lift, ret, sys_exit.
  destruct (fs w _) as [e | text]; [ by destruct e | ].
  destruct (json_loads text); done.
Qed.

(** [process_git_configs] up to the loop. *)
Lemma process_git_configs_spec git_short token_file t :
  process_git_configs w git_short token_file t
  = match fs w token_file with
    | inl e =>
        (if is_FileNotFoundError e
         then SystemExit (TOKEN_MISSING_MSG token_file) else Raise e,
         t ++ [Open token_file])
    | inr text =>
        let server := git_server text in
        let t1 := t ++ [Open token_file; Net server (GetProject git_short)] in
        match git_project w server git_short with
        | inl e => (Raise e, t1)
        | inr project_id =>
            bind (for_each ENVS (git_env_step w server project_id) ∅)
              (λ acc, bind (git_pipeline w server project_id acc)
                        (git_commit w server project_id)) t1
        end
    end.
Proof.
  unfold process_git_configs.
  unfold bind at 1. rewrite read_token_spec.
  destruct (fs w token_file) as [e | text]; [ by destruct e | ].
  unfold bind at 1. unfold call, bind at 1, emit, lift.
  unfold git_project, git_server. simpl.
  rewrite <- app_assoc. simpl.
  destruct (remote w _ (GetProject git_short)) as [e | project]; [ done | ].
  unfold bind at 1. unfold getitem, lift.
  destruct (py_getitem project "id") as [e | project_id]; done.
Qed.

(** Every request of the steps after the first goes to [server]. *)
Lemma git_steps_emit server project_id :
  emits (λ ev, ∃ req, ev = Net server req)
    (bind (for_each ENVS (git_env_step w server project_id) ∅)
       (λ acc, bind (git_pipeline w server project_id acc)
                 (git_commit w server project_id))).
Proof.
  apply emits_bind; [ apply emits_for_each | intros acc; apply emits_bind ].
  - intros acc env t. rewrite git_env_step_spec. eexists. split; [ done | ].
    repeat constructor. eauto.
  - intros t. rewrite git_pipeline_spec. eexists. split; [ done | ].
    repeat constructor. eauto.
  - intros acc' t. rewrite git_commit_spec. eexists. split; [ done | ].
    repeat constructor. eauto.
Qed.

(** What follows the loop, in each function. *)
Lemma git_rest_malformed server project_id :
  git_file_status w server project_id pipeline_json = Malformed →
  ∀ acc t, (bind (git_pipeline w server project_id acc)
              (git_commit w server project_id) t).1
           = SystemExit (JSON_ERROR_MSG pipeline_json).
Proof.
  intros Hbad acc t. erewrite bind_exit; [ done | ].
  by rewrite git_pipeline_spec, Hbad.
Qed.

Lemma git_rest_Return server project_id acc t b t' :
  bind (git_pipeline w server project_id acc)
    (git_commit w server project_id) t = (Return b, t') →
  readable (git_file_status w server project_id pipeline_json) = true.
Proof.
  intros (acc' & t1 & Hpipe & _)%bind_Return_inv.
  rewrite git_pipeline_spec in Hpipe.
  by destruct (git_file_status w server project_id pipeline_json).
Qed.

Lemma runway_rest_malformed runway_dir :
  local_file_status w (path_join runway_dir "pipeline.json") = Malformed →
  ∀ acc t, (runway_pipeline w runway_dir acc t).1
           = SystemExit (JSON_ERROR_MSG (path_join runway_dir "pipeline.json")).
Proof. intros Hbad acc t. by rewrite runway_pipeline_spec, Hbad. Qed.

Lemma runway_rest_Return runway_dir acc t b t' :
  runway_pipeline w runway_dir acc t = (Return b, t') →
  readable (local_file_status w (path_join runway_dir "pipeline.json")) = true.
Proof.
  rewrite runway_pipeline_spec.
  by destruct (local_file_status w (path_join runway_dir "pipeline.json")).
Qed.

(** The states of a file in terms of what the surroundings answer. *)
Lemma local_file_status_Absent path :
  local_file_status w path = Absent ↔ fs w path = inl FileNotFoundError.
Proof.
  unfold local_file_status. destruct (fs w path) as [e | text].
  - destruct e; simpl; split; congruence.
  - destruct (json_loads text); split; congruence.
Qed.

Lemma local_file_status_Valid path v :
  local_file_status w path = Valid v ↔
  ∃ text, fs w path = inr text ∧ json_loads text = Some v.
Proof.
  unfold local_file_status. destruct (fs w path) as [e | text].
  - split; [ destruct e; simpl; congruence | intros (text & ? & _); congruence ].
  - split.
    + destruct (json_loads text) as [v' | ] eqn:Ev; [ | done ].
      intros [= ->]. by exists text.
    + intros (text' & [= <-] & ->). done.
Qed.

Lemma git_file_status_Absent server project_id path :
  git_file_status w server project_id path = Absent ↔
  ∃ file_blob, remote w server (GetFile project_id path "master") = inr file_blob
               ∧ truthy file_blob = false.
Proof.
  unfold git_file_status.
  destruct (remote w server _) as [e | file_blob].
  - split; [ done | intros (? & ? & _); congruence ].
  - destruct (truthy file_blob) eqn:Etruthy.
    + split; [ | intros (? & [= <-] & ?); congruence ].
      destruct (py_getitem file_blob "content"); [ done | ].
      destruct (py_b64decode _); [ done | ].
      destruct (decode _); [ | done ]. by destruct (json_loads _).
    + split; [ by exists file_blob | done ].
Qed.

Lemma git_file_status_Valid server project_id path v :
  git_file_status w server project_id path = Valid v ↔
  ∃ file_blob content b text,
    remote w server (GetFile project_id path "master") = inr file_blob
    ∧ truthy file_blob = true
    ∧ py_getitem file_blob "content" = inr (JStr content)
    ∧ b64decode content = Some b
    ∧ decode b = Some text
    ∧ json_loads text = Some v.
Proof.
  unfold git_file_status, py_b64decode. split.
  - destruct (remote w server _) as [e | file_blob]; [ done | ].
    destruct (truthy file_blob) eqn:Etruthy; [ | done ].
    destruct (py_getitem file_blob "content") as [e | c] eqn:Ec; [ done | ].
    destruct c as [ | | | content | | ]; try done.
    destruct (b64decode content) as [b | ] eqn:Eb; [ | done ].
    destruct (decode b) as [text | ] eqn:Et; [ | done ].
    destruct (json_loads text) as [v' | ] eqn:Ev; [ | done ].
    intros [= ->]. by exists file_blob, content, b, text.
  - intros (file_blob & content & b & text & -> & -> & -> & -> & -> & ->).
    done.
Qed.

(** A [SystemExit] of [process_git_configs] is the one for the token file
    or carries the message for malformed JSON. *)
Lemma process_git_configs_SystemExit git_short token_file msg :
  (process_git_configs w git_short token_file []).1 = SystemExit msg →
  fs w token_file = inl FileNotFoundError
  ∨ ∃ text project_id,
      fs w token_file = inr text ∧
      git_project w (git_server text) git_short = inr project_id ∧
      (msg = JSON_ERROR_MSG pipeline_json ∧
       git_file_status w (git_server text) project_id pipeline_json = Malformed
       ∨ ∃ env, env ∈ ENVS ∧ msg = JSON_ERROR_MSG (app_json env)).
Proof.
  rewrite process_git_configs_spec.
  destruct (fs w token_file) as [e | text] eqn:Hfs;
    [ destruct e; simpl; (by left) || done | ].
  cbv zeta.
  destruct (git_project w (git_server text) git_short) as [e | project_id]
    eqn:Hproj; [ by simpl | cbv beta iota ].
  intros Hexit. right. exists text, project_id. do 2 (split; [ done | ]).
  destruct (bind _ _ _) as [o t] eqn:Hrun. simpl in Hexit. subst o.
  apply bind_SystemExit_inv in Hrun
    as [Hloop | (acc & t1 & _ & Hrun)].
  - right. by apply (loop_SystemExit (git_env_step_spec _ _)) in Hloop.
  - left. apply bind_SystemExit_inv in Hrun
      as [Hpipe | (acc' & t2 & _ & Hcommit)].
    + rewrite git_pipeline_spec in Hpipe.
      destruct (git_file_status w (git_server text) project_id pipeline_json);
        simpl in Hpipe; try done. by injection Hpipe as <- _.
    + rewrite git_commit_spec in Hcommit.
      destruct (master_commit w _ _); [ done | ].
      destruct (defaultdict_getitem acc' "pipeline") as [q acc''].
      by destruct (py_setitem q _ _).
Qed.

(** A returning [process_git_configs] went through all of its steps. *)
Lemma process_git_configs_Return git_short token_file b t :
  process_git_configs w git_short token_file [] = (Return b, t) →
  ∃ text project_id acc t1 acc' t2,
    fs w token_file = inr text ∧
    git_project w (git_server text) git_short = inr project_id ∧
    for_each ENVS (git_env_step w (git_server text) project_id) ∅
      [Open token_file; Net (git_server text) (GetProject git_short)]
    = (Return acc, t1) ∧
    git_pipeline w (git_server text) project_id acc t1 = (Return acc', t2) ∧
    git_commit w (git_server text) project_id acc' t2 = (Return b, t).
Proof.
  rewrite process_git_configs_spec.
  destruct (fs w token_file) as [e | text] eqn:Hfs; [ by destruct e | ].
  cbv zeta.
  destruct (git_project w (git_server text) git_short) as [e | project_id]
    eqn:Hproj; [ by simpl | cbv beta iota ].
  intros (acc & t1 & Hloop & (acc' & t2 & Hpipe & Hcommit)%bind_Return_inv)
    %bind_Return_inv.
  by exists text, project_id, acc, t1, acc', t2.
Qed.

(** A returning [process_runway_configs] stored the default or the parsed
    [pipeline.json] over what its loop returned. *)
Lemma process_runway_configs_Return runway_dir b t :
  process_runway_configs w runway_dir [] = (Return b, t) →
  ∃ acc t1 p,
    for_each ENVS (runway_env_step w runway_dir) ∅ [] = (Return acc, t1) ∧
    b = <["pipeline" := p]> acc ∧
    (local_file_status w (path_join runway_dir "pipeline.json") = Absent
     ∧ p = default_pipeline
     ∨ local_file_status w (path_join runway_dir "pipeline.json") = Valid p).
Proof.
  unfold process_runway_configs.
  intros (acc & t1 & Hloop & Hpipe)%bind_Return_inv.
  rewrite runway_pipeline_spec in Hpipe.
  destruct (local_file_status w (path_join runway_dir "pipeline.json"))
    as [ | v | | e]; simpl in Hpipe; try done; injection Hpipe as <- _.
  - exists acc, t1, default_pipeline. auto.
  - exists acc, t1, v. auto.
Qed.

(** The keys of a bundle returned by [process_git_configs]: what the loop
    stored, and [pipeline]. *)
Lemma process_git_configs_lookup git_short token_file b t :
  process_git_configs w git_short token_file [] = (Return b, t) →
  ∃ text project_id acc t1 p,
    fs w token_file = inr text ∧
    git_project w (git_server text) git_short = inr project_id ∧
    for_each ENVS (git_env_step w (git_server text) project_id) ∅
      [Open token_file; Net (git_server text) (GetProject git_short)]
    = (Return acc, t1) ∧
    b = <["pipeline" := p]> acc.
Proof.
  intros (text & project_id & acc & t1 & acc' & t2 & Hfs & Hproj & Hloop
          & Hpipe & Hcommit)%process_git_configs_Return.
  rewrite git_pipeline_spec in Hpipe. rewrite git_commit_spec in Hcommit.
  destruct (master_commit w (git_server text) project_id) as [e | c];
    [ done | ].
  assert (∃ q, acc' = <["pipeline" := q]> acc) as [q ->].
  { destruct (git_file_status w (git_server text) project_id pipeline_json);
      simpl in Hpipe; try done; injection Hpipe as <- _; eauto. }
  unfold defaultdict_getitem in Hcommit. rewrite lookup_insert_eq in Hcommit.
  destruct (py_setitem q "config_commit" c) as [e | q']; [ done | ].
  injection Hcommit as <- _. rewrite insert_insert_eq.
  by exists text, project_id, acc, t1, q'.
Qed.

Lemma env_not_pipeline env : env ∈ ENVS → env ≠ "pipeline".
Proof.
  unfold ENVS. rewrite !elem_of_cons, elem_of_nil. intros Hin ->.
  repeat (destruct Hin as [Hin | Hin]; [ discriminate | ]). done.
Qed.

(** What [git_commit] returns when the bundle has a [pipeline] entry. *)
Lemma git_commit_Return server project_id acc pipeline t b t' :
  acc !! "pipeline" = Some pipeline →
  git_commit w server project_id acc t = (Return b, t') →
  ∃ config_commit m,
    master_commit w server project_id = inr config_commit ∧
    pipeline = JObj m ∧
    b = <["pipeline" := JObj (<["config_commit" := config_commit]> m)]> acc.
Proof.
  intros Hp. rewrite git_commit_spec. unfold defaultdict_getitem. rewrite Hp.
  destruct (master_commit w server project_id) as [e | config_commit];
    [ done | ].
  destruct pipeline as [ | | | | | m]; simpl; try done.
  intros [= <- _]. by exists config_commit, m.
Qed.

End Steps.

(** ** Properties of the two functions *)

Section Claims.

Context `{Library} (w : world).

(** C6: when the token file does not exist, [process_git_configs] ends
    with [SystemExit] and the message [GitLab private token file missing:]
    followed by the path, and no request has been sent to the remote
    service. *)
Theorem token_file_missing_is_fatal git_short token_file :
  fs w token_file = inl FileNotFoundError →
  (process_git_configs w git_short token_file []).1
  = SystemExit ("GitLab private token file missing: " +:+ token_file)
  ∧ ∀ server req,
      Net server req ∉ (process_git_configs w git_short token_file []).2.
Proof.
  intros Hfs. rewrite process_git_configs_spec, Hfs. simpl. split; [ done | ].
  intros server req [Hin | Hin%elem_of_nil]%elem_of_cons; done.
Qed.

(** C1: a bundle returned by [process_git_configs] has, in its [pipeline]
    entry, the key [config_commit] set to the commit identifier the
    service gives for [master]; when [runway/pipeline.json] is missing the
    entry is the default with this one key added. *)
Theorem git_pipeline_config_commit git_short token_file b t :
  process_git_configs w git_short token_file [] = (Return b, t) →
  ∃ text project_id config_commit,
    fs w token_file = inr text ∧
    git_project w (git_server text) git_short = inr project_id ∧
    master_commit w (git_server text) project_id = inr config_commit ∧
    (∃ m, b !! "pipeline" = Some (JObj m) ∧
          m !! "config_commit" = Some config_commit) ∧
    (∀ pipeline_blob,
       remote w (git_server text)
         (GetFile project_id "runway/pipeline.json" "master")
       = inr pipeline_blob →
       truthy pipeline_blob = false →
       b !! "pipeline"
       = Some (JObj {[ "env" := JArr [JStr "stage"; JStr "prod"];
                       "config_commit" := config_commit ]})).
Proof.
  intros (text & project_id & acc & t1 & acc' & t2 & Hfs & Hproj & _ & Hpipe
          & Hcommit)%process_git_configs_Return.
  rewrite git_pipeline_spec in Hpipe.
  assert (∃ p, acc' !! "pipeline" = Some p ∧
               (git_file_status w (git_server text) project_id pipeline_json
                = Absent → p = default_pipeline)) as (p & Hp & Hdef).
  { destruct (git_file_status w (git_server text) project_id pipeline_json)
      as [ | v | | e]; simpl in Hpipe; try done; injection Hpipe as <- _.
    - exists default_pipeline. by rewrite lookup_insert_eq.
    - exists v. by rewrite lookup_insert_eq. }
  destruct (git_commit_Return _ _ _ _ _ _ _ _ Hp Hcommit)
    as (config_commit & m & Hmc & -> & ->).
  exists text, project_id, config_commit. repeat split; try done.
  - exists (<["config_commit" := config_commit]> m).
    by rewrite !lookup_insert_eq.
  - intros pipeline_blob Hblob Hfalsy.
    assert (Habs : git_file_status w (git_server text) project_id pipeline_json
                   = Absent) by (apply git_file_status_Absent; eauto).
    specialize (Hdef Habs). injection Hdef as ->.
    rewrite lookup_insert_eq. do 2 f_equal.
Qed.

(** C2: in a bundle returned by either function, the key [pipeline] is
    present and every other key is one of the eight environment names. *)
Theorem bundle_keys b :
  (∃ git_short token_file t,
     process_git_configs w git_short token_file [] = (Return b, t))
  ∨ (∃ runway_dir t, process_runway_configs w runway_dir [] = (Return b, t)) →
  is_Some (b !! "pipeline") ∧
  ∀ k, is_Some (b !! k) → k ≠ "pipeline" →
       k ∈ ["build"; "dev"; "stage"; "prod"; "prodp"; "stagepci"; "prods";
            "stagesox"].
Proof.
  assert (Hkeys : ∀ (acc : gmap string json) p,
            (∀ k, is_Some (acc !! k) → k ∈ ENVS) →
            is_Some (<["pipeline" := p]> acc !! "pipeline") ∧
            ∀ k, is_Some (<["pipeline" := p]> acc !! k) → k ≠ "pipeline" →
                 k ∈ ENVS).
  { intros acc p Hacc. split; [ by rewrite lookup_insert_eq | ].
    intros k Hk Hne. rewrite lookup_insert_ne in Hk by done. auto. }
  intros [(git_short & token_file & t & Hret) | (runway_dir & t & Hret)].
  - apply process_git_configs_lookup in Hret
      as (text & project_id & acc & t1 & p & _ & _ & Hfor & ->).
    apply Hkeys. apply (loop_Return (git_env_step_spec w _ _)) in Hfor as [_ Hlook].
    intros k Hk. rewrite Hlook in Hk.
    destruct (decide (k ∈ ENVS)); [ done | ].
    rewrite lookup_empty in Hk. by destruct Hk.
  - apply process_runway_configs_Return in Hret
      as (acc & t1 & p & Hfor & -> & _).
    apply Hkeys. apply (loop_Return (runway_env_step_spec w _)) in Hfor as [_ Hlook].
    intros k Hk. rewrite Hlook in Hk.
    destruct (decide (k ∈ ENVS)); [ done | ].
    rewrite lookup_empty in Hk. by destruct Hk.
Qed.

(** C3: for each of the eight environment names and in both modes, a
    returned bundle has no entry for an environment whose file is missing,
    and has exactly the parsed document for one whose file holds valid
    JSON. *)
Theorem env_entries env b :
  env ∈ ENVS →
  (∀ git_short token_file t text project_id,
     process_git_configs w git_short token_file [] = (Return b, t) →
     fs w token_file = inr text →
     git_project w (git_server text) git_short = inr project_id →
     (∀ file_blob,
        remote w (git_server text) (GetFile project_id (app_json env) "master")
        = inr file_blob →
        truthy file_blob = false → b !! env = None) ∧
     (∀ file_blob content bytes text' v,
        remote w (git_server text) (GetFile project_id (app_json env) "master")
        = inr file_blob →
        truthy file_blob = true →
        py_getitem file_blob "content" = inr (JStr content) →
        b64decode content = Some bytes →
        decode bytes = Some text' →
        json_loads text' = Some v →
        b !! env = Some v))
  ∧ (∀ runway_dir t,
       process_runway_configs w runway_dir [] = (Return b, t) →
       (fs w (path_join runway_dir (file_json env)) = inl FileNotFoundError →
        b !! env = None) ∧
       (∀ text v, fs w (path_join runway_dir (file_json env)) = inr text →
                  json_loads text = Some v → b !! env = Some v)).
Proof.
  intros Henv. pose proof (env_not_pipeline env Henv) as Hne. split.
  - intros git_short token_file t text project_id Hret Hfs Hproj.
    apply process_git_configs_lookup in Hret
      as (text' & project_id' & acc & t1 & p & Hfs' & Hproj' & Hfor & ->).
    rewrite Hfs in Hfs'. injection Hfs' as <-.
    rewrite Hproj in Hproj'. injection Hproj' as <-.
    apply (loop_Return (git_env_step_spec w _ _)) in Hfor as [_ Hlook].
    rewrite lookup_insert_ne by done. rewrite Hlook, decide_True by done.
    split.
    + intros file_blob Hblob Hfalsy.
      assert (git_file_status w (git_server text) project_id (app_json env)
              = Absent) as -> by (apply git_file_status_Absent; eauto).
      by rewrite lookup_empty.
    + intros file_blob content bytes text' v Hblob Htruthy Hc Hb Ht Hv.
      assert (git_file_status w (git_server text) project_id (app_json env)
              = Valid v) as ->; [ | done ].
      apply git_file_status_Valid. by exists file_blob, content, bytes, text'.
  - intros runway_dir t Hret.
    apply process_runway_configs_Return in Hret
      as (acc & t1 & p & Hfor & -> & _).
    apply (loop_Return (runway_env_step_spec w _)) in Hfor as [_ Hlook].
    rewrite lookup_insert_ne by done. rewrite Hlook, decide_True by done.
    split.
    + intros ->%local_file_status_Absent. by rewrite lookup_empty.
    + intros text v Hfs Hv.
      assert (local_file_status w (path_join runway_dir (file_json env))
              = Valid v) as -> by (apply local_file_status_Valid; eauto).
      done.
Qed.

(** C4: when [pipeline.json] is not in the directory, the step that reads
    it does not fail: it stores the default, which has no [config_commit]
    key; a bundle that [process_runway_configs] returns has exactly this
    default as its [pipeline] entry, and the function does return when
    each application file is missing or valid. *)
Theorem runway_pipeline_default runway_dir :
  fs w (path_join runway_dir "pipeline.json") = inl FileNotFoundError →
  (∀ acc t, ∃ t',
     runway_pipeline w runway_dir acc t
     = (Return (<["pipeline" := JObj {[ "env" := JArr [JStr "stage"; JStr "prod"] ]}]>
                  acc), t'))
  ∧ (∀ b t, process_runway_configs w runway_dir [] = (Return b, t) →
            b !! "pipeline"
            = Some (JObj {[ "env" := JArr [JStr "stage"; JStr "prod"] ]}))
  ∧ py_getitem (JObj {[ "env" := JArr [JStr "stage"; JStr "prod"] ]})
      "config_commit" = inl KeyError
  ∧ ((∀ env, env ∈ ENVS →
        readable (local_file_status w (path_join runway_dir (file_json env)))
        = true) →
     ∃ b t, process_runway_configs w runway_dir [] = (Return b, t)).
Proof.
  intros Habs%local_file_status_Absent.
  assert (Hstep : ∀ acc t,
            runway_pipeline w runway_dir acc t
            = (Return (<["pipeline" := default_pipeline]> acc),
               t ++ [Open (path_join runway_dir "pipeline.json")])).
  { intros acc t. by rewrite runway_pipeline_spec, Habs. }
  split; [ intros acc t; eexists; apply Hstep | ].
  split; [ | split; [ done | ] ].
  - intros b t (acc & t1 & p & _ & -> & [[_ ->] | Hv])
      %process_runway_configs_Return.
    + by rewrite lookup_insert_eq.
    + congruence.
  - intros Hok. unfold process_runway_configs.
    destruct (loop_readable (runway_env_step_spec w runway_dir) ENVS ∅ [] Hok)
      as [acc Hacc].
    rewrite (bind_step _ _ _ _ _ Hacc), Hstep. eauto.
Qed.

(** C8, as the code has it: the [pipeline] entry of a bundle returned by
    [process_runway_configs] is the default, which has no [config_commit]
    key, or exactly the document parsed from [pipeline.json]; it has a
    [config_commit] key only when that document has one, with the same
    value: the function adds none. *)
Theorem runway_adds_no_config_commit runway_dir b t :
  process_runway_configs w runway_dir [] = (Return b, t) →
  ∃ p, b !! "pipeline" = Some p ∧
       (fs w (path_join runway_dir "pipeline.json") = inl FileNotFoundError
        ∧ p = JObj {[ "env" := JArr [JStr "stage"; JStr "prod"] ]}
        ∨ ∃ text, fs w (path_join runway_dir "pipeline.json") = inr text
                  ∧ json_loads text = Some p) ∧
       (∀ c, py_getitem p "config_commit" = inr c →
             ∃ text v, fs w (path_join runway_dir "pipeline.json") = inr text
                       ∧ json_loads text = Some v
                       ∧ py_getitem v "config_commit" = inr c).
Proof.
  intros (acc & t1 & p & _ & -> & Hp)%process_runway_configs_Return.
  exists p. rewrite lookup_insert_eq. split; [ done | ].
  destruct Hp as [[Habs%local_file_status_Absent ->]
                 | (text & Hfs & Hv)%local_file_status_Valid].
  - split; [ by left | ]. intros c Hc. discriminate Hc.
  - split; [ right; eauto | ]. intros c Hc. eauto.
Qed.

(** C9: when [runway/pipeline.json] is found and parses to a value that is
    not an object, [process_git_configs] returns no bundle; if the
    application files are missing or valid and the commit of [master] is
    resolved, it ends with a [TypeError], raised by the assignment of
    [config_commit]; in no case does it end with the message for a
    malformed [runway/pipeline.json]. *)
Theorem git_pipeline_not_object git_short token_file text project_id v :
  fs w token_file = inr text →
  git_project w (git_server text) git_short = inr project_id →
  git_file_status w (git_server text) project_id pipeline_json = Valid v →
  (∀ m, v ≠ JObj m) →
  (∀ b, (process_git_configs w git_short token_file []).1 ≠ Return b)
  ∧ ((∀ env, env ∈ ENVS →
        readable (git_file_status w (git_server text) project_id (app_json env))
        = true) →
     ∀ config_commit,
       master_commit w (git_server text) project_id = inr config_commit →
       (process_git_configs w git_short token_file []).1 = Raise TypeError)
  ∧ (process_git_configs w git_short token_file []).1
    ≠ SystemExit (JSON_ERROR_MSG pipeline_json).
Proof.
  intros Hfs Hproj Hv Hobj. split; [ | split ].
  - intros b Hb.
    destruct (process_git_configs w git_short token_file []) as [o t] eqn:Hrun.
    simpl in Hb. subst o.
    apply process_git_configs_Return in Hrun
      as (text' & project_id' & acc & t1 & acc' & t2 & Hfs' & Hproj' & _
          & Hpipe & Hcommit).
    rewrite Hfs in Hfs'. injection Hfs' as <-.
    rewrite Hproj in Hproj'. injection Hproj' as <-.
    rewrite git_pipeline_spec, Hv in Hpipe. injection Hpipe as <- _.
    eapply git_commit_Return in Hcommit as (_ & m & _ & Hm & _);
      [ | apply lookup_insert_eq ].
    by apply (Hobj m).
  - intros Hok config_commit Hmc.
    rewrite process_git_configs_spec, Hfs. cbv zeta. rewrite Hproj.
    destruct (loop_readable (git_env_step_spec w (git_server text) project_id)
                ENVS ∅ [Open token_file;
                        Net (git_server text) (GetProject git_short)] Hok)
      as [acc Hacc].
    rewrite (bind_step _ _ _ _ _ Hacc).
    erewrite bind_step; [ | by rewrite git_pipeline_spec, Hv ].
    rewrite git_commit_spec, Hmc. unfold defaultdict_getitem.
    rewrite lookup_insert_eq.
    destruct v as [ | | | | | m]; try done. by destruct (Hobj m).
  - intros Hexit.
    apply process_git_configs_SystemExit in Hexit
      as [Hnf | (text' & project_id' & Hfs' & Hproj' & Hmsg)];
      [ congruence | ].
    rewrite Hfs in Hfs'. injection Hfs' as <-.
    rewrite Hproj in Hproj'. injection Hproj' as <-.
    destruct Hmsg as [[_ Hbad] | (env & Henv & Hmsg)]; [ congruence | ].
    unfold ENVS in Henv. rewrite !elem_of_cons, elem_of_nil in Henv.
    repeat (destruct Henv as [-> | Henv]; [ discriminate Hmsg | ]). done.
Qed.

(** C10: [process_git_configs] ends with the message for a missing token
    file exactly when opening the file fails with [FileNotFoundError];
    any other failure to open or read it leaves the function as it was
    raised, before any request is sent. *)
Theorem token_file_other_failure git_short token_file :
  ((process_git_configs w git_short token_file []).1
   = SystemExit ("GitLab private token file missing: " +:+ token_file)
   ↔ fs w token_file = inl FileNotFoundError)
  ∧ ∀ e, fs w token_file = inl e → e ≠ FileNotFoundError →
         process_git_configs w git_short token_file []
         = (Raise e, [Open token_file]).
Proof.
  split.
  - split.
    + intros [Hnf | (text & project_id & _ & _ & Hmsg)]
        %process_git_configs_SystemExit; [ done | ].
      destruct Hmsg as [[Hmsg _] | (env & _ & Hmsg)]; discriminate Hmsg.
    + intros Hfs. by rewrite process_git_configs_spec, Hfs.
  - intros e Hfs Hne. rewrite process_git_configs_spec, Hfs.
    by destruct e.
Qed.

(** C5: in both modes, when one of the nine files is malformed and the
    files looked at before it are missing or valid, the function ends with
    [SystemExit] and the message of [JSON_ERROR_MSG] for the name of that
    file; and whenever one of the nine files is malformed no bundle is
    returned. *)
Theorem malformed_json_is_fatal :
  (∀ git_short token_file text project_id,
     fs w token_file = inr text →
     git_project w (git_server text) git_short = inr project_id →
     (∀ pre name post,
        git_tracked w (git_server text) project_id
        = pre ++ (Malformed, name) :: post →
        (∀ p, p ∈ pre → readable p.1 = true) →
        (process_git_configs w git_short token_file []).1
        = SystemExit (dq +:+ name +:+ dq +:+
            " appears to be invalid json. Please validate it with http://jsonlint.com."))
     ∧ (∀ name, (Malformed, name) ∈ git_tracked w (git_server text) project_id →
                ∀ b, (process_git_configs w git_short token_file []).1
                     ≠ Return b))
  ∧ (∀ runway_dir,
       (∀ pre name post,
          runway_tracked w runway_dir = pre ++ (Malformed, name) :: post →
          (∀ p, p ∈ pre → readable p.1 = true) →
          (process_runway_configs w runway_dir []).1
          = SystemExit (dq +:+ name +:+ dq +:+
              " appears to be invalid json. Please validate it with http://jsonlint.com."))
       ∧ (∀ name, (Malformed, name) ∈ runway_tracked w runway_dir →
                  ∀ b, (process_runway_configs w runway_dir []).1 ≠ Return b)).
Proof.
  split.
  - intros git_short token_file text project_id Hfs Hproj.
    rewrite process_git_configs_spec, Hfs. cbv zeta. rewrite Hproj. split.
    + intros pre name post Htracked Hok.
      by apply (tracked_first_malformed (git_env_step_spec w _ _)
                  (git_rest_malformed w _ _) ENVS pre name post).
    + intros name Hin b Hb.
      destruct (bind _ _ _) as [o t] eqn:Hrun. simpl in Hb. subst o.
      apply (tracked_Return (git_env_step_spec w _ _)
               (pname := pipeline_json) (git_rest_Return w _ _))
        with (p := (Malformed, name)) in Hrun; done.
  - intros runway_dir. unfold process_runway_configs. split.
    + intros pre name post Htracked Hok.
      by apply (tracked_first_malformed (runway_env_step_spec w _)
                  (runway_rest_malformed w _) ENVS pre name post).
    + intros name Hin b Hb.
      destruct (bind _ _ _) as [o t] eqn:Hrun. simpl in Hb. subst o.
      apply (tracked_Return (runway_env_step_spec w _)
               (pname := path_join runway_dir "pipeline.json")
               (runway_rest_Return w _))
        with (p := (Malformed, name)) in Hrun; done.
Qed.

(** C7, as the code has it: the token of every request is the whole text
    of the token file with leading and trailing whitespace removed, and a
    first request is made with it; this is the trimmed first line when
    only whitespace follows the first line. *)
Theorem token_is_stripped_text git_short token_file text :
  fs w token_file = inr text →
  (∃ rest, (process_git_configs w git_short token_file []).2
           = Open token_file
             :: Net {| host := GIT_URL; token := strip text |}
                    (GetProject git_short)
             :: rest)
  ∧ (∀ server req,
       Net server req ∈ (process_git_configs w git_short token_file []).2 →
       token server = strip text)
  ∧ (all_space (after_first_line text) = true →
     strip text = strip (first_line text)).
Proof.
  intros Hfs. rewrite process_git_configs_spec, Hfs. cbv zeta.
  assert (∃ rest,
            (match git_project w (git_server text) git_short with
             | inl e => (Raise e, [] ++ [Open token_file;
                           Net (git_server text) (GetProject git_short)])
             | inr project_id =>
                 bind (for_each ENVS
                         (git_env_step w (git_server text) project_id) ∅)
                   (λ acc, bind (git_pipeline w (git_server text) project_id acc)
                             (git_commit w (git_server text) project_id))
                   ([] ++ [Open token_file;
                           Net (git_server text) (GetProject git_short)])
             end).2
            = Open token_file
              :: Net (git_server text) (GetProject git_short) :: rest
            ∧ Forall (λ ev, ∃ req, ev = Net (git_server text) req) rest)
    as (rest & -> & Hrest).
  { destruct (git_project w (git_server text) git_short) as [e | project_id].
    - by exists [].
    - destruct (git_steps_emit w (git_server text) project_id
                  ([] ++ [Open token_file;
                          Net (git_server text) (GetProject git_short)]))
        as (rest & -> & Hrest).
      by exists rest. }
  split; [ by exists rest | split; [ | apply strip_first_line ] ].
  intros server req [Hin | [Hin | Hin]%elem_of_cons]%elem_of_cons.
  - done.
  - by injection Hin as -> _.
  - rewrite Forall_forall in Hrest.
    destruct (Hrest _ Hin) as (req' & [= -> _]). done.
Qed.

End Claims.

(** ** More on the loops *)

Section LoopFailures.

Variable status : string → file_status.
Variable name : string → string.
Variable ev : string → event.
Variable step : gmap string json → string → M (gmap string json).

Hypothesis step_spec : ∀ acc env t,
  step acc env t = (settle (name env) env id acc (status env), t ++ [ev env]).

(** The loop stops at the first file that is neither missing nor valid,
    and has looked at nothing after it. *)
Lemma loop_first_unreadable pre env post acc t :
  (∀ k, k ∈ pre → readable (status k) = true) →
  readable (status env) = false →
  for_each (pre ++ env :: post) step acc t
  = (match status env with
     | Broken e => Raise e
     | _ => SystemExit (JSON_ERROR_MSG (name env))
     end, t ++ map ev (pre ++ [env])).
Proof.
  revert acc t. induction pre as [| x r IH]; intros acc t Hok Hbad; simpl.
  - unfold bind. rewrite step_spec.
    by destruct (status env).
  - assert (Hx : readable (status x) = true) by (apply Hok; left).
    assert (Hr : ∀ k, k ∈ r → readable (status k) = true)
      by (intros k Hk; apply Hok; by right).
    pose proof (step_spec acc x t) as Hs.
    destruct (status x) as [| v | | e]; try discriminate; simpl in Hs;
      rewrite (bind_step _ _ _ _ _ Hs), IH by done;
      by rewrite <- app_assoc.
Qed.

(** A loop that ends with [SystemExit] met a malformed file. *)
Lemma loop_SystemExit_Malformed l acc t msg t' :
  for_each l step acc t = (SystemExit msg, t') →
  ∃ env, env ∈ l ∧ status env = Malformed ∧ msg = JSON_ERROR_MSG (name env).
Proof.
  revert acc t. induction l as [| x r IH]; intros acc t Hrun; simpl in Hrun.
  - discriminate.
  - apply bind_SystemExit_inv in Hrun as [Hs | (acc1 & t1 & _ & Hloop)].
    + rewrite step_spec in Hs. exists x. split; [ left | ].
      destruct (status x); simpl in Hs; try discriminate.
      split; [ done | congruence ].
    + destruct (IH _ _ Hloop) as (env & Hin & Hst & ->). exists env.
      split; [ by right | done ].
Qed.

(** A loop that returns has looked at each file, in order. *)
Lemma loop_Return_trace l acc t acc' t' :
  for_each l step acc t = (Return acc', t') → t' = t ++ map ev l.
Proof.
  intros Hrun.
  destruct (loop_Return step_spec l acc t acc' t' Hrun) as [Hok _].
  destruct (loop_readable step_spec l acc t Hok) as [acc'' Hrun'].
  congruence.
Qed.

End LoopFailures.

Lemma bind_raise {A B} (m : M A) (f : A → M B) t e t1 :
  m t = (Raise e, t1) → bind m f t = (Raise e, t1).
Proof. unfold bind. by intros ->. Qed.

Arguments loop_first_unreadable {status name ev step} step_spec.
Arguments loop_SystemExit_Malformed {status name ev step} step_spec.
Arguments loop_Return_trace {status name ev step} step_spec.

(** ** Further properties of the two functions *)

Section Further.

Context `{Library} (w : world).

(** X1: a call of [process_git_configs] that returns has opened the token
    file and then sent exactly eleven requests with the one client: the
    project, the eight application files in the order of [ENVS], the
    pipeline file, all on [master], and last the branch [master]. *)
Theorem git_requests_of_a_return git_short token_file b t :
  process_git_configs w git_short token_file [] = (Return b, t) →
  ∃ text project_id,
    fs w token_file = inr text ∧
    git_project w (git_server text) git_short = inr project_id ∧
    t = Open token_file
        :: map (Net (git_server text))
             (GetProject git_short
              :: map (λ env, GetFile project_id
                               ("runway/application-master-" +:+ env +:+ ".json")
                               "master")
                   ["build"; "dev"; "stage"; "prod"; "prodp"; "stagepci";
                    "prods"; "stagesox"]
              ++ [GetFile project_id "runway/pipeline.json" "master";
                  GetBranch project_id "master"]).
Proof.
  intros (text & project_id & acc & t1 & acc' & t2 & Hfs & Hproj & Hloop & Hpipe
          & Hcommit)%process_git_configs_Return.
  exists text, project_id. do 2 (split; [ done | ]).
  apply (loop_Return_trace (git_env_step_spec w _ _)) in Hloop. subst t1.
  rewrite git_pipeline_spec in Hpipe. injection Hpipe as _ <-.
  rewrite git_commit_spec in Hcommit. injection Hcommit as _ <-.
  reflexivity.
Qed.

(** X2: whatever its outcome, [process_runway_configs] sends no request to
    the remote service; when it returns it has opened exactly the nine
    files, the eight application files in the order of [ENVS] and then
    [pipeline.json], each joined to the directory. *)
Theorem runway_files_opened runway_dir :
  (∀ server req, Net server req ∉ (process_runway_configs w runway_dir []).2)
  ∧ ∀ b t, process_runway_configs w runway_dir [] = (Return b, t) →
           t = map (λ f, Open (path_join runway_dir f))
                 (map (λ env, "application-master-" +:+ env +:+ ".json")
                    ["build"; "dev"; "stage"; "prod"; "prodp"; "stagepci";
                     "prods"; "stagesox"]
                  ++ ["pipeline.json"]).
Proof.
  split.
  - assert (Hemits : emits (λ ev, ∃ path, ev = Open path)
                       (process_runway_configs w runway_dir)).
    { apply emits_bind; [ apply emits_for_each | ].
      - intros acc env t. rewrite runway_env_step_spec. eexists.
        split; [ done | ]. repeat constructor. eauto.
      - intros acc t. rewrite runway_pipeline_spec. eexists.
        split; [ done | ]. repeat constructor. eauto. }
    destruct (Hemits []) as (t' & -> & Ht'). simpl.
    intros server req Hin. rewrite Forall_forall in Ht'.
    by destruct (Ht' _ Hin) as (path & Hpath).
  - intros b t (acc & t1 & Hloop & Hpipe)%bind_Return_inv.
    apply (loop_Return_trace (runway_env_step_spec w _)) in Hloop. subst t1.
    rewrite runway_pipeline_spec in Hpipe. injection Hpipe as _ <-.
    reflexivity.
Qed.

(** X3: when [runway/pipeline.json] is found and parses to [v], a returned
    bundle has as [pipeline] entry the object [v] with [config_commit] set
    to the commit of [master]: a [config_commit] of the document is
    replaced, every other key is kept. *)
Theorem git_pipeline_found_entry git_short token_file b t text project_id
    pipeline_blob content bytes text' v config_commit :
  process_git_configs w git_short token_file [] = (Return b, t) →
  fs w token_file = inr text →
  git_project w (git_server text) git_short = inr project_id →
  remote w (git_server text) (GetFile project_id "runway/pipeline.json" "master")
  = inr pipeline_blob →
  truthy pipeline_blob = true →
  py_getitem pipeline_blob "content" = inr (JStr content) →
  b64decode content = Some bytes →
  decode bytes = Some text' →
  json_loads text' = Some v →
  master_commit w (git_server text) project_id = inr config_commit →
  ∃ m, v = JObj m ∧
       b !! "pipeline" = Some (JObj (<["config_commit" := config_commit]> m)).
Proof.
  intros Hrun Hfs Hproj Hblob Htruthy Hcontent Hb64 Hdecode Hloads Hmc.
  assert (Hv : git_file_status w (git_server text) project_id pipeline_json
               = Valid v).
  { apply git_file_status_Valid.
    by exists pipeline_blob, content, bytes, text'. }
  apply process_git_configs_Return in Hrun
    as (text0 & project_id0 & acc & t1 & acc' & t2 & Hfs' & Hproj' & _ & Hpipe
        & Hcommit).
  rewrite Hfs in Hfs'. injection Hfs' as <-.
  rewrite Hproj in Hproj'. injection Hproj' as <-.
  rewrite git_pipeline_spec, Hv in Hpipe. injection Hpipe as <- _.
  eapply git_commit_Return in Hcommit as (c & m & Hmc' & Hm & ->);
    [ | apply lookup_insert_eq ].
  rewrite Hmc in Hmc'. injection Hmc' as <-.
  exists m. split; [ done | ]. by rewrite lookup_insert_eq.
Qed.

(** X4: when the service answers the project request with something that
    is not an object (the client's [False] for an unknown project), the
    call ends with [TypeError]; when the answer is an object without [id],
    with [KeyError]. In both cases no file has been requested. *)
Theorem git_project_not_found git_short token_file text project :
  fs w token_file = inr text →
  remote w (git_server text) (GetProject git_short) = inr project →
  ((∀ m, project ≠ JObj m) →
   process_git_configs w git_short token_file []
   = (Raise TypeError,
      [Open token_file; Net (git_server text) (GetProject git_short)]))
  ∧ (∀ m, project = JObj m → m !! "id" = None →
          process_git_configs w git_short token_file []
          = (Raise KeyError,
             [Open token_file; Net (git_server text) (GetProject git_short)])).
Proof.
  intros Hfs Hproject. rewrite process_git_configs_spec, Hfs. cbv zeta.
  unfold git_project. rewrite Hproject. split.
  - intros Hobj. destruct project as [ | | | | | m]; try done.
    by destruct (Hobj m).
  - intros m -> Hid. simpl. by rewrite Hid.
Qed.

(** X5: [process_git_configs] returns a bundle exactly when the token file
    is read, the project identifier is resolved, each of the eight
    application files is missing or valid, [runway/pipeline.json] is
    missing or parses to an object, and the commit of [master] is
    resolved. *)
Theorem git_returns_iff git_short token_file :
  (∃ b t, process_git_configs w git_short token_file [] = (Return b, t))
  ↔ ∃ text project_id config_commit,
      fs w token_file = inr text ∧
      git_project w (git_server text) git_short = inr project_id ∧
      (∀ env, env ∈ ENVS →
         readable (git_file_status w (git_server text) project_id (app_json env))
         = true) ∧
      (git_file_status w (git_server text) project_id pipeline_json = Absent
       ∨ ∃ m, git_file_status w (git_server text) project_id pipeline_json
              = Valid (JObj m)) ∧
      master_commit w (git_server text) project_id = inr config_commit.
Proof.
  split.
  - intros (b & t & (text & project_id & acc & t1 & acc' & t2 & Hfs & Hproj
                     & Hloop & Hpipe & Hcommit)%process_git_configs_Return).
    apply (loop_Return (git_env_step_spec w _ _)) in Hloop as [Hok _].
    rewrite git_pipeline_spec in Hpipe.
    destruct (git_file_status w (git_server text) project_id pipeline_json)
      as [ | v | | e] eqn:Hst; simpl in Hpipe; try done;
      injection Hpipe as <- _;
      (eapply git_commit_Return in Hcommit as (c & m & Hmc & Hm & _);
       [ | apply lookup_insert_eq ]);
      exists text, project_id, c; repeat split; try done.
    + by left.
    + right. exists m. congruence.
  - intros (text & project_id & c & Hfs & Hproj & Hok & Hpipe & Hmc).
    rewrite process_git_configs_spec, Hfs. cbv zeta. rewrite Hproj.
    destruct (loop_readable (git_env_step_spec w (git_server text) project_id)
                ENVS ∅ ([] ++ [Open token_file;
                               Net (git_server text) (GetProject git_short)])
                Hok) as [acc Hacc].
    rewrite (bind_step _ _ _ _ _ Hacc).
    destruct Hpipe as [Hst | [m Hst]].
    + erewrite bind_step; [ | by rewrite git_pipeline_spec, Hst ].
      rewrite git_commit_spec, Hmc. unfold defaultdict_getitem.
      rewrite lookup_insert_eq. simpl. eauto.
    + erewrite bind_step; [ | by rewrite git_pipeline_spec, Hst ].
      rewrite git_commit_spec, Hmc. unfold defaultdict_getitem.
      rewrite lookup_insert_eq. simpl. eauto.
Qed.

(** X6: [process_runway_configs] returns a bundle exactly when each of the
    nine files is missing or holds valid JSON. *)
Theorem runway_returns_iff runway_dir :
  (∃ b t, process_runway_configs w runway_dir [] = (Return b, t))
  ↔ ∀ p, p ∈ runway_tracked w runway_dir → readable p.1 = true.
Proof.
  split.
  - intros (b & t & Hrun) p Hp. unfold process_runway_configs in Hrun.
    by apply (tracked_Return (runway_env_step_spec w _)
                (pname := path_join runway_dir "pipeline.json")
                (runway_rest_Return w _)) with (p := p) in Hrun.
  - intros Hok. unfold process_runway_configs.
    destruct (loop_readable (runway_env_step_spec w runway_dir) ENVS ∅ [])
      as [acc Hacc].
    { intros env Henv.
      apply (Hok (local_file_status w (path_join runway_dir (file_json env)),
                  file_json env)).
      apply elem_of_app. left.
      by apply (list_elem_of_fmap_2
                  (λ env, (local_file_status w
                             (path_join runway_dir (file_json env)),
                           file_json env))). }
    rewrite (bind_step _ _ _ _ _ Hacc), runway_pipeline_spec.
    assert (Hp : readable (local_file_status w
                             (path_join runway_dir "pipeline.json")) = true).
    { apply (Hok (local_file_status w (path_join runway_dir "pipeline.json"),
                  path_join runway_dir "pipeline.json")).
      apply elem_of_app. right. apply list_elem_of_here. }
    destruct (local_file_status w (path_join runway_dir "pipeline.json"));
      try done; simpl; eauto.
Qed.

(** [process_git_configs] when the first application file that is neither
    missing nor valid is that of [env]. *)
Lemma git_first_unreadable git_short token_file text project_id pre env post :
  fs w token_file = inr text →
  git_project w (git_server text) git_short = inr project_id →
  ENVS = pre ++ env :: post →
  (∀ k, k ∈ pre →
     readable (git_file_status w (git_server text) project_id (app_json k))
     = true) →
  readable (git_file_status w (git_server text) project_id (app_json env))
  = false →
  process_git_configs w git_short token_file []
  = (match git_file_status w (git_server text) project_id (app_json env) with
     | Broken e => Raise e
     | _ => SystemExit (JSON_ERROR_MSG (app_json env))
     end,
     Open token_file
     :: map (Net (git_server text))
          (GetProject git_short
           :: map (λ k, GetFile project_id (app_json k) "master")
                (pre ++ [env]))).
Proof.
  intros Hfs Hproj HENVS Hok Hbad.
  rewrite process_git_configs_spec, Hfs. cbv zeta. rewrite Hproj, HENVS.
  pose proof (loop_first_unreadable
                (git_env_step_spec w (git_server text) project_id)
                pre env post ∅
                ([] ++ [Open token_file;
                        Net (git_server text) (GetProject git_short)])
                Hok Hbad) as Hloop.
  cbv beta in Hloop. simpl. rewrite map_map.
  destruct (git_file_status w (git_server text) project_id (app_json env));
    try discriminate.
  - by rewrite (bind_exit _ _ _ _ _ Hloop).
  - by rewrite (bind_raise _ _ _ _ _ Hloop).
Qed.


(** X8: in [process_runway_configs], a failure to open or read an
    application file other than [FileNotFoundError] is not skipped: a
    [ValueError] (a file that is not valid text) gives the message for
    malformed JSON, anything else (a permission error, a directory) leaves
    the call as it was raised. *)
Theorem runway_unreadable_file runway_dir pre env post e :
  ENVS = pre ++ env :: post →
  (∀ k, k ∈ pre →
     readable (local_file_status w (path_join runway_dir (file_json k)))
     = true) →
  fs w (path_join runway_dir (file_json env)) = inl e →
  e ≠ FileNotFoundError →
  (process_runway_configs w runway_dir []).1
  = if is_ValueError e
    then SystemExit (JSON_ERROR_MSG (file_json env))
    else Raise e.
Proof.
  intros HENVS Hok Hfs Hne. unfold process_runway_configs. rewrite HENVS.
  assert (Hst : local_file_status w (path_join runway_dir (file_json env))
                = if is_ValueError e then Malformed else Broken e).
  { unfold local_file_status. rewrite Hfs. by destruct e. }
  assert (Hbad : readable (local_file_status w
                             (path_join runway_dir (file_json env))) = false).
  { rewrite Hst. by destruct (is_ValueError e). }
  pose proof (loop_first_unreadable (runway_env_step_spec w runway_dir)
                pre env post ∅ [] Hok Hbad) as Hloop.
  cbv beta in Hloop. rewrite Hst in Hloop. destruct (is_ValueError e).
  - by rewrite (bind_exit _ _ _ _ _ Hloop).
  - by rewrite (bind_raise _ _ _ _ _ Hloop).
Qed.

(** X9: when an application file is malformed (the files before it missing
    or valid), [process_git_configs] has sent the requests for the project
    and for the files up to that one, and nothing more: no later file, no
    pipeline file and no branch is asked for. *)
Theorem git_stops_at_malformed git_short token_file text project_id
    pre env post :
  fs w token_file = inr text →
  git_project w (git_server text) git_short = inr project_id →
  ENVS = pre ++ env :: post →
  (∀ k, k ∈ pre →
     readable (git_file_status w (git_server text) project_id (app_json k))
     = true) →
  git_file_status w (git_server text) project_id (app_json env) = Malformed →
  (process_git_configs w git_short token_file []).2
  = Open token_file
    :: map (Net (git_server text))
         (GetProject git_short
          :: map (λ k, GetFile project_id
                         ("runway/application-master-" +:+ k +:+ ".json")
                         "master")
               (pre ++ [env])).
Proof.
  intros Hfs Hproj HENVS Hok Hst.
  rewrite (git_first_unreadable _ _ _ _ _ _ _ Hfs Hproj HENVS Hok)
    by (by rewrite Hst).
  reflexivity.
Qed.

(** X10: a [SystemExit] of [process_runway_configs] always carries the
    message for malformed JSON, for one of the nine files that is indeed
    malformed. *)
Theorem runway_exit_is_malformed runway_dir msg :
  (process_runway_configs w runway_dir []).1 = SystemExit msg →
  ∃ name, (Malformed, name) ∈ runway_tracked w runway_dir
          ∧ msg = JSON_ERROR_MSG name.
Proof.
  destruct (process_runway_configs w runway_dir []) as [o t] eqn:Hrun.
  simpl. intros ->. unfold process_runway_configs in Hrun.
  apply bind_SystemExit_inv in Hrun as [Hloop | (acc & t1 & _ & Hpipe)].
  - apply (loop_SystemExit_Malformed (runway_env_step_spec w _)) in Hloop
      as (env & Henv & Hst & ->).
    exists (file_json env). split; [ | done ].
    apply elem_of_app. left. rewrite <- Hst.
    by apply (list_elem_of_fmap_2
                (λ env, (local_file_status w
                           (path_join runway_dir (file_json env)),
                         file_json env))).
  - rewrite runway_pipeline_spec in Hpipe.
    destruct (local_file_status w (path_join runway_dir "pipeline.json"))
      eqn:Hst; simpl in Hpipe; try done.
    injection Hpipe as <- _.
    exists (path_join runway_dir "pipeline.json"). split; [ | done ].
    apply elem_of_app. right. unfold runway_tracked. rewrite Hst.
    apply list_elem_of_here.
Qed.

(** X11: a [SystemExit] of [process_git_configs] is the one for a missing
    token file, or carries the message for malformed JSON for one of the
    nine remote files that is indeed malformed. *)
Theorem git_exit_is_token_or_malformed git_short token_file msg :
  (process_git_configs w git_short token_file []).1 = SystemExit msg →
  (fs w token_file = inl FileNotFoundError
   ∧ msg = "GitLab private token file missing: " +:+ token_file)
  ∨ ∃ text project_id name,
      fs w token_file = inr text ∧
      git_project w (git_server text) git_short = inr project_id ∧
      (Malformed, name) ∈ git_tracked w (git_server text) project_id ∧
      msg = JSON_ERROR_MSG name.
Proof.
  rewrite process_git_configs_spec.
  destruct (fs w token_file) as [e | text] eqn:Hfs.
  { destruct e; simpl; try done. intros [= <-]. by left. }
  cbv zeta.
  destruct (git_project w (git_server text) git_short) as [e | project_id]
    eqn:Hproj; [ by simpl | cbv beta iota ].
  intros Hexit. right. exists text, project_id.
  destruct (bind _ _ _) as [o t] eqn:Hrun. simpl in Hexit. subst o.
  apply bind_SystemExit_inv in Hrun as [Hloop | (acc & t1 & _ & Hrun)].
  - apply (loop_SystemExit_Malformed (git_env_step_spec w _ _)) in Hloop
      as (env & Henv & Hst & ->).
    exists (app_json env). do 2 (split; [ done | ]). split; [ | done ].
    apply elem_of_app. left. rewrite <- Hst.
    by apply (list_elem_of_fmap_2
                (λ env, (git_file_status w (git_server text) project_id
                           (app_json env), app_json env))).
  - apply bind_SystemExit_inv in Hrun as [Hpipe | (acc' & t2 & _ & Hcommit)].
    + rewrite git_pipeline_spec in Hpipe.
      destruct (git_file_status w (git_server text) project_id pipeline_json)
        eqn:Hst; simpl in Hpipe; try done.
      injection Hpipe as <- _.
      exists pipeline_json. do 2 (split; [ done | ]). split; [ | done ].
      apply elem_of_app. right. unfold git_tracked. rewrite Hst.
      apply list_elem_of_here.
    + rewrite git_commit_spec in Hcommit.
      destruct (master_commit w _ _); [ done | ].
      destruct (defaultdict_getitem acc' "pipeline") as [q acc''].
      by destruct (py_setitem q _ _).
Qed.

(** X12: whatever its outcome, [process_git_configs] opens no local file
    but the token file. *)
Theorem git_opens_only_token_file git_short token_file path :
  Open path ∈ (process_git_configs w git_short token_file []).2 →
  path = token_file.
Proof.
  rewrite process_git_configs_spec.
  destruct (fs w token_file) as [e | text].
  { simpl. intros [Hin | Hin%elem_of_nil]%elem_of_cons; [ congruence | done ]. }
  cbv zeta.
  destruct (git_project w (git_server text) git_short) as [e | project_id].
  { simpl. intros [Hin | [Hin | Hin%elem_of_nil]%elem_of_cons]%elem_of_cons;
      [ congruence | done | done ]. }
  destruct (git_steps_emit w (git_server text) project_id
              ([] ++ [Open token_file;
                      Net (git_server text) (GetProject git_short)]))
    as (rest & -> & Hrest).
  simpl. intros [Hin | [Hin | Hin]%elem_of_cons]%elem_of_cons.
  - congruence.
  - done.
  - rewrite Forall_forall in Hrest. by destruct (Hrest _ Hin) as (req & Hreq).
Qed.

(** X13: the commit of [master] is asked for last: when it cannot be
    resolved although all nine files are missing or valid, the call ends
    with the exception of that lookup, after all eleven requests, and
    returns nothing of what it has read. *)
Theorem git_commit_failure git_short token_file text project_id e :
  fs w token_file = inr text →
  git_project w (git_server text) git_short = inr project_id →
  (∀ p, p ∈ git_tracked w (git_server text) project_id → readable p.1 = true) →
  master_commit w (git_server text) project_id = inl e →
  process_git_configs w git_short token_file []
  = (Raise e,
     Open token_file
     :: map (Net (git_server text))
          (GetProject git_short
           :: map (λ env, GetFile project_id
                            ("runway/application-master-" +:+ env +:+ ".json")
                            "master")
                ["build"; "dev"; "stage"; "prod"; "prodp"; "stagepci";
                 "prods"; "stagesox"]
           ++ [GetFile project_id "runway/pipeline.json" "master";
               GetBranch project_id "master"])).
Proof.
  intros Hfs Hproj Hok Hmc.
  rewrite process_git_configs_spec, Hfs. cbv zeta. rewrite Hproj.
  destruct (loop_readable (git_env_step_spec w (git_server text) project_id)
              ENVS ∅ ([] ++ [Open token_file;
                             Net (git_server text) (GetProject git_short)]))
    as [acc Hacc].
  { intros env Henv.
    apply (Hok (git_file_status w (git_server text) project_id (app_json env),
                app_json env)).
    apply elem_of_app. left.
    by apply (list_elem_of_fmap_2
                (λ env, (git_file_status w (git_server text) project_id
                           (app_json env), app_json env))). }
  rewrite (bind_step _ _ _ _ _ Hacc).
  assert (Hp : readable (git_file_status w (git_server text) project_id
                           pipeline_json) = true).
  { apply (Hok (git_file_status w (git_server text) project_id pipeline_json,
                pipeline_json)).
    apply elem_of_app. right. apply list_elem_of_here. }
  unfold bind at 1. rewrite git_pipeline_spec.
  destruct (git_file_status w (git_server text) project_id pipeline_json);
    try discriminate; simpl; by rewrite git_commit_spec, Hmc.
Qed.

(** X14: for the first application file that is found (the files before
    it missing or valid), a truthy answer that is not an object, or whose
    [content] is not a string, ends the call with [TypeError], and an
    object without the key [content] with [KeyError]: none of them is
    reported as malformed JSON. *)
Theorem git_blob_without_content git_short token_file text project_id
    pre env post file_blob :
  fs w token_file = inr text →
  git_project w (git_server text) git_short = inr project_id →
  ENVS = pre ++ env :: post →
  (∀ k, k ∈ pre →
     readable (git_file_status w (git_server text) project_id (app_json k))
     = true) →
  remote w (git_server text) (GetFile project_id (app_json env) "master")
  = inr file_blob →
  truthy file_blob = true →
  ((∀ m, file_blob ≠ JObj m) →
   (process_git_configs w git_short token_file []).1 = Raise TypeError)
  ∧ (∀ m, file_blob = JObj m → m !! "content" = None →
          (process_git_configs w git_short token_file []).1 = Raise KeyError)
  ∧ (∀ m content, file_blob = JObj m → m !! "content" = Some content →
                  (∀ c, content ≠ JStr c) →
                  (process_git_configs w git_short token_file []).1
                  = Raise TypeError).
Proof.
  intros Hfs Hproj HENVS Hok Hblob Htruthy.
  assert (Hraise : ∀ e,
            git_file_status w (git_server text) project_id (app_json env)
            = Broken e →
            (process_git_configs w git_short token_file []).1 = Raise e).
  { intros e Hst.
    rewrite (git_first_unreadable _ _ _ _ _ _ _ Hfs Hproj HENVS Hok)
      by (by rewrite Hst).
    by rewrite Hst. }
  split; [ | split ].
  - intros Hobj. apply Hraise. unfold git_file_status.
    rewrite Hblob, Htruthy.
    destruct file_blob as [ | | | | | m]; try done. by destruct (Hobj m).
  - intros m -> Hcontent. apply Hraise. unfold git_file_status.
    rewrite Hblob, Htruthy. simpl. by rewrite Hcontent.
  - intros m content -> Hcontent Hstr. apply Hraise. unfold git_file_status.
    rewrite Hblob, Htruthy. simpl. rewrite Hcontent.
    destruct content as [ | | | c | | ]; try done. by destruct (Hstr c).
Qed.

(** X15: the two functions agree on the same documents. When the
    repository and the directory hold, for each of the nine files, the same
    state (missing, or valid with the same value) and both calls return,
    the two bundles have the same entry at every key but [pipeline], and
    the [pipeline] entry of the remote bundle is that of the local one
    with [config_commit] set to the commit of [master]. *)
Theorem git_and_runway_agree git_short token_file runway_dir text project_id
    b_remote t_remote b_local t_local :
  process_git_configs w git_short token_file [] = (Return b_remote, t_remote) →
  process_runway_configs w runway_dir [] = (Return b_local, t_local) →
  fs w token_file = inr text →
  git_project w (git_server text) git_short = inr project_id →
  (∀ env, env ∈ ENVS →
     git_file_status w (git_server text) project_id (app_json env)
     = local_file_status w (path_join runway_dir (file_json env))) →
  git_file_status w (git_server text) project_id pipeline_json
  = local_file_status w (path_join runway_dir "pipeline.json") →
  (∀ k, k ≠ "pipeline" → b_remote !! k = b_local !! k)
  ∧ ∃ m config_commit,
      master_commit w (git_server text) project_id = inr config_commit ∧
      b_local !! "pipeline" = Some (JObj m) ∧
      b_remote !! "pipeline"
      = Some (JObj (<["config_commit" := config_commit]> m)).
Proof.
  intros Hgit Hrunway Hfs Hproj Henvs Hpipeline.
  apply process_git_configs_Return in Hgit
    as (text0 & project_id0 & acc & t1 & acc' & t2 & Hfs' & Hproj' & Hloop
        & Hpipe & Hcommit).
  rewrite Hfs in Hfs'. injection Hfs' as <-.
  rewrite Hproj in Hproj'. injection Hproj' as <-.
  apply (loop_Return (git_env_step_spec w _ _)) in Hloop as [_ Hacc].
  apply process_runway_configs_Return in Hrunway
    as (lacc & lt1 & p & Hlloop & -> & Hp).
  apply (loop_Return (runway_env_step_spec w _)) in Hlloop as [_ Hlacc].
  rewrite git_pipeline_spec, Hpipeline in Hpipe.
  assert (acc' = <["pipeline" := p]> acc) as ->.
  { destruct Hp as [[Hst ->] | Hst]; rewrite Hst in Hpipe; simpl in Hpipe;
      by injection Hpipe as <- _. }
  eapply git_commit_Return in Hcommit as (c & m & Hmc & -> & ->);
    [ | apply lookup_insert_eq ].
  split.
  - intros k Hk. rewrite !lookup_insert_ne by done. rewrite Hacc, Hlacc.
    destruct (decide (k ∈ ENVS)) as [Hin | ]; [ | done ].
    by rewrite (Henvs k Hin).
  - exists m, c. by rewrite !lookup_insert_eq.
Qed.

End Further.

(** ** The properties on concrete surroundings *)

Import Demo.
#[local] Existing Instance library.

Example git_w_prod : (git w_prod).1 = Return b_git.
Proof. vm_compute. reflexivity. Qed.

Example runway_r_default : (runway r_default).1 = Return b_runway.
Proof. vm_compute. reflexivity. Qed.

(** The second scenario of the specification: only [pipeline.json]. *)
Example runway_only_pipeline :
  (runway (runway_world (inl FileNotFoundError) (inr txt_pipe))).1
  = Return {[ "pipeline" := val_pipe ]}.
Proof. vm_compute. reflexivity. Qed.

Example runway_r_prod_bad :
  (runway r_prod_bad).1
  = SystemExit (JSON_ERROR_MSG "application-master-prod.json").
Proof. vm_compute. reflexivity. Qed.

Example strip_examples :
  strip ("  a b" +:+ nl +:+ " ") = "a b" ∧ strip two_lines = "s3cr3t" +:+ nl +:+ "extra"
  ∧ first_line two_lines = "s3cr3t".
Proof. vm_compute. auto. Qed.

Example path_join_examples :
  path_join "" "pipeline.json" = "pipeline.json"
  ∧ path_join "runway" "pipeline.json" = "runway/pipeline.json"
  ∧ path_join "runway/" "pipeline.json" = "runway/pipeline.json".
Proof. vm_compute. auto. Qed.

Lemma git_pipeline_config_commit_witness :
  ∃ text project_id config_commit,
    fs w_prod token_path = inr text ∧
    git_project w_prod (git_server text) "forrest/core" = inr project_id ∧
    master_commit w_prod (git_server text) project_id = inr config_commit ∧
    (∃ m, b_git !! "pipeline" = Some (JObj m) ∧
          m !! "config_commit" = Some config_commit) ∧
    (∀ pipeline_blob,
       remote w_prod (git_server text)
         (GetFile project_id "runway/pipeline.json" "master")
       = inr pipeline_blob →
       truthy pipeline_blob = false →
       b_git !! "pipeline"
       = Some (JObj {[ "env" := JArr [JStr "stage"; JStr "prod"];
                       "config_commit" := config_commit ]})).
Proof.
  apply (git_pipeline_config_commit w_prod "forrest/core" token_path b_git
           (git w_prod).2).
  vm_compute. reflexivity.
Defined.

Lemma bundle_keys_witness :
  (is_Some (b_git !! "pipeline") ∧
   ∀ k, is_Some (b_git !! k) → k ≠ "pipeline" →
        k ∈ ["build"; "dev"; "stage"; "prod"; "prodp"; "stagepci"; "prods";
             "stagesox"])
  ∧ (is_Some (b_runway !! "pipeline") ∧
     ∀ k, is_Some (b_runway !! k) → k ≠ "pipeline" →
          k ∈ ["build"; "dev"; "stage"; "prod"; "prodp"; "stagepci"; "prods";
               "stagesox"]).
Proof.
  split.
  - apply (bundle_keys w_prod b_git). left.
    exists "forrest/core", token_path, (git w_prod).2. vm_compute. reflexivity.
  - apply (bundle_keys r_default b_runway). right.
    exists "runway", (runway r_default).2. vm_compute. reflexivity.
Defined.

Lemma env_entries_witness :
  (b_git !! "prod" = Some val_prod ∧ b_git !! "dev" = None)
  ∧ (b_runway !! "prod" = Some val_prod ∧ b_runway !! "dev" = None).
Proof.
  assert (Hprod : "prod" ∈ ENVS)
    by (unfold ENVS; do 3 apply list_elem_of_further; apply list_elem_of_here).
  assert (Hdev : "dev" ∈ ENVS)
    by (unfold ENVS; apply list_elem_of_further; apply list_elem_of_here).
  assert (Hgit : process_git_configs w_prod "forrest/core" token_path []
                 = (Return b_git, (git w_prod).2))
    by (vm_compute; reflexivity).
  assert (Hrunway : process_runway_configs r_default "runway" []
                    = (Return b_runway, (runway r_default).2))
    by (vm_compute; reflexivity).
  split; split.
  - apply (proj2 (proj1 (env_entries w_prod "prod" b_git Hprod)
                    "forrest/core" token_path _ ("s3cr3t" +:+ nl) (JNum 7)
                    Hgit eq_refl eq_refl)
             (blob "eyJpbnN0YW5jZV90eXBlIjogIm01LmxhcmdlIn0=")
             "eyJpbnN0YW5jZV90eXBlIjogIm01LmxhcmdlIn0="
             (list_byte_of_string txt_prod) txt_prod);
      vm_compute; reflexivity.
  - apply (proj1 (proj1 (env_entries w_prod "dev" b_git Hdev)
                    "forrest/core" token_path _ ("s3cr3t" +:+ nl) (JNum 7)
                    Hgit eq_refl eq_refl)
             (JBool false)); vm_compute; reflexivity.
  - apply (proj2 (env_entries r_default "prod" b_runway Hprod)
             "runway" _ Hrunway) with (text := txt_prod);
      vm_compute; reflexivity.
  - apply (proj2 (env_entries r_default "dev" b_runway Hdev)
             "runway" _ Hrunway); vm_compute; reflexivity.
Defined.

Lemma runway_pipeline_default_witness :
  ∃ b t, process_runway_configs r_default "runway" [] = (Return b, t)
         ∧ b !! "pipeline"
           = Some (JObj {[ "env" := JArr [JStr "stage"; JStr "prod"] ]}).
Proof.
  assert (Hfs : fs r_default (path_join "runway" "pipeline.json")
                = inl FileNotFoundError) by reflexivity.
  destruct (runway_pipeline_default r_default "runway" Hfs)
    as (_ & Hentry & _ & Hreturns).
  destruct Hreturns as (b & t & Hrun).
  - intros env Henv. unfold ENVS in Henv.
    rewrite !elem_of_cons, elem_of_nil in Henv.
    repeat (destruct Henv as [-> | Henv]; [ vm_compute; reflexivity | ]).
    destruct Henv.
  - exists b, t. split; [ exact Hrun | exact (Hentry b t Hrun) ].
Defined.

Lemma malformed_json_is_fatal_witness :
  (git w_pipeline_bad).1 = SystemExit (JSON_ERROR_MSG "runway/pipeline.json")
  ∧ (runway r_prod_bad).1
    = SystemExit (JSON_ERROR_MSG "application-master-prod.json")
  ∧ (runway r_pipeline_bad).1
    = SystemExit (JSON_ERROR_MSG "runway/pipeline.json").
Proof.
  assert (Hall : ∀ (pre : list (file_status * string)),
            forallb (λ p, readable p.1) pre = true →
            ∀ p, p ∈ pre → readable p.1 = true).
  { intros pre Hpre p Hp. rewrite forallb_forall in Hpre.
    apply Hpre. by apply list_elem_of_In. }
  split; [ | split ].
  - apply (proj1 (proj1 (malformed_json_is_fatal w_pipeline_bad)
                    "forrest/core" token_path ("s3cr3t" +:+ nl) (JNum 7)
                    eq_refl eq_refl)
             (take 8 (git_tracked w_pipeline_bad
                        (git_server ("s3cr3t" +:+ nl)) (JNum 7)))
             "runway/pipeline.json" []).
    + vm_compute. reflexivity.
    + apply Hall. vm_compute. reflexivity.
  - apply (proj1 (proj2 (malformed_json_is_fatal r_prod_bad) "runway")
             (take 3 (runway_tracked r_prod_bad "runway"))
             "application-master-prod.json"
             (drop 4 (runway_tracked r_prod_bad "runway"))).
    + vm_compute. reflexivity.
    + apply Hall. vm_compute. reflexivity.
  - apply (proj1 (proj2 (malformed_json_is_fatal r_pipeline_bad) "runway")
             (take 8 (runway_tracked r_pipeline_bad "runway"))
             "runway/pipeline.json" []).
    + vm_compute. reflexivity.
    + apply Hall. vm_compute. reflexivity.
Defined.

Lemma token_file_missing_is_fatal_witness :
  (process_git_configs w_no_token "forrest/core" token_path []).1
  = SystemExit ("GitLab private token file missing: " +:+ token_path)
  ∧ ∀ server req,
      Net server req ∉ (process_git_configs w_no_token "forrest/core" token_path []).2.
Proof.
  apply (token_file_missing_is_fatal w_no_token "forrest/core" token_path).
  reflexivity.
Defined.

(** C7 as stated fails: with a token file of two lines the first request
    carries both lines, not the first one. *)
Lemma token_first_line_counterexample :
  ¬ (∀ (L : Library) (w : world) git_short token_file text,
       fs w token_file = inr text →
       ∀ server req,
         Net server req ∈ (process_git_configs w git_short token_file []).2 →
         token server = strip (first_line text)).
Proof.
  intros Hclaim.
  specialize (Hclaim library w_two_lines "forrest/core" token_path two_lines
                eq_refl (git_server two_lines) (GetProject "forrest/core")).
  assert (Hin : Net (git_server two_lines) (GetProject "forrest/core")
                ∈ (process_git_configs w_two_lines "forrest/core" token_path []).2).
  { vm_compute. apply list_elem_of_further, list_elem_of_here. }
  apply Hclaim in Hin. vm_compute in Hin. discriminate Hin.
Qed.

Lemma token_is_stripped_text_witness :
  (∃ rest, (process_git_configs w_two_lines "forrest/core" token_path []).2
           = Open token_path
             :: Net {| host := GIT_URL; token := strip two_lines |}
                    (GetProject "forrest/core")
             :: rest)
  ∧ (∀ server req,
       Net server req
       ∈ (process_git_configs w_two_lines "forrest/core" token_path []).2 →
       token server = strip two_lines)
  ∧ (all_space (after_first_line two_lines) = true →
     strip two_lines = strip (first_line two_lines)).
Proof.
  apply (token_is_stripped_text w_two_lines "forrest/core" token_path two_lines).
  reflexivity.
Defined.

(** C8 as stated fails: a [pipeline.json] that has a [config_commit] key
    gives a [pipeline] entry that has it. *)
Lemma runway_config_commit_counterexample :
  ¬ (∀ (L : Library) (w : world) runway_dir b t,
       process_runway_configs w runway_dir [] = (Return b, t) →
       ∀ m, b !! "pipeline" = Some (JObj m) → m !! "config_commit" = None).
Proof.
  intros Hclaim.
  specialize (Hclaim library r_commit "runway"
                {[ "prod" := val_prod; "pipeline" := val_pipe_commit ]}
                (runway r_commit).2).
  assert (Hrun : process_runway_configs r_commit "runway" []
                 = (Return {[ "prod" := val_prod; "pipeline" := val_pipe_commit ]},
                    (runway r_commit).2))
    by (vm_compute; reflexivity).
  specialize (Hclaim Hrun
                {[ "env" := JArr [JStr "stage"]; "config_commit" := JStr "abc" ]}
                eq_refl).
  vm_compute in Hclaim. discriminate Hclaim.
Qed.

Lemma runway_adds_no_config_commit_witness :
  ∃ p, ({[ "prod" := val_prod; "pipeline" := val_pipe_commit ]}
          : gmap string json) !! "pipeline" = Some p ∧
       (fs r_commit (path_join "runway" "pipeline.json") = inl FileNotFoundError
        ∧ p = JObj {[ "env" := JArr [JStr "stage"; JStr "prod"] ]}
        ∨ ∃ text, fs r_commit (path_join "runway" "pipeline.json") = inr text
                  ∧ json_loads text = Some p) ∧
       (∀ c, py_getitem p "config_commit" = inr c →
             ∃ text v, fs r_commit (path_join "runway" "pipeline.json") = inr text
                       ∧ json_loads text = Some v
                       ∧ py_getitem v "config_commit" = inr c).
Proof.
  apply (runway_adds_no_config_commit r_commit "runway" _ (runway r_commit).2).
  vm_compute. reflexivity.
Defined.

Lemma git_pipeline_not_object_witness :
  (∀ b, (process_git_configs w_pipeline_list "forrest/core" token_path []).1
        ≠ Return b)
  ∧ (process_git_configs w_pipeline_list "forrest/core" token_path []).1
    = Raise TypeError.
Proof.
  assert (Hv : git_file_status w_pipeline_list (git_server ("s3cr3t" +:+ nl))
                 (JNum 7) pipeline_json = Valid val_list)
    by (vm_compute; reflexivity).
  destruct (git_pipeline_not_object w_pipeline_list "forrest/core" token_path
              ("s3cr3t" +:+ nl) (JNum 7) val_list eq_refl eq_refl Hv)
    as (Hnever & Htype & _).
  - intros m Hm. discriminate Hm.
  - split; [ exact Hnever | ].
    apply (Htype) with (config_commit := JStr "abc123"); [ | reflexivity ].
    intros env Henv. unfold ENVS in Henv.
    rewrite !elem_of_cons, elem_of_nil in Henv.
    repeat (destruct Henv as [-> | Henv]; [ vm_compute; reflexivity | ]).
    destruct Henv.
Defined.

Lemma token_file_other_failure_witness :
  process_git_configs w_token_denied "forrest/core" token_path []
  = (Raise PermissionError, [Open token_path]).
Proof.
  apply (proj2 (token_file_other_failure w_token_denied "forrest/core" token_path)
           PermissionError); [ reflexivity | discriminate ].
Defined.


(** ** The further properties on concrete surroundings *)

(** Settles a goal about each member of a concrete list by evaluation. *)
Ltac each_member k Hk :=
  intros k Hk; try unfold ENVS in Hk; rewrite ?elem_of_cons, elem_of_nil in Hk;
  repeat (destruct Hk as [-> | Hk]; [ vm_compute; reflexivity | ]);
  destruct Hk.

Lemma git_requests_of_a_return_witness :
  ∃ text project_id,
    fs w_prod token_path = inr text ∧
    git_project w_prod (git_server text) "forrest/core" = inr project_id ∧
    (git w_prod).2
    = Open token_path
      :: map (Net (git_server text))
           (GetProject "forrest/core"
            :: map (λ env, GetFile project_id
                             ("runway/application-master-" +:+ env +:+ ".json")
                             "master")
                 ["build"; "dev"; "stage"; "prod"; "prodp"; "stagepci";
                  "prods"; "stagesox"]
            ++ [GetFile project_id "runway/pipeline.json" "master";
                GetBranch project_id "master"]).
Proof.
  apply (git_requests_of_a_return w_prod "forrest/core" token_path b_git).
  vm_compute. reflexivity.
Defined.

Lemma git_pipeline_found_entry_witness :
  ∃ m, val_pipe = JObj m ∧
       b_pipeline_found !! "pipeline"
       = Some (JObj (<["config_commit" := JStr "abc123"]> m)).
Proof.
  apply (git_pipeline_found_entry w_pipeline_found "forrest/core" token_path
           b_pipeline_found (git w_pipeline_found).2 ("s3cr3t" +:+ nl) (JNum 7)
           (blob "eyJlbnYiOiBbInN0YWdlIl19") "eyJlbnYiOiBbInN0YWdlIl19"
           (list_byte_of_string txt_pipe) txt_pipe);
    vm_compute; reflexivity.
Defined.

Lemma git_project_not_found_witness :
  process_git_configs w_prod "no/such" token_path []
  = (Raise TypeError,
     [Open token_path;
      Net (git_server ("s3cr3t" +:+ nl)) (GetProject "no/such")]).
Proof.
  apply (proj1 (git_project_not_found w_prod "no/such" token_path
                  ("s3cr3t" +:+ nl) (JBool false) eq_refl eq_refl)).
  intros m Hm. discriminate Hm.
Defined.


Lemma runway_unreadable_file_witness :
  (process_runway_configs r_prod_denied "runway" []).1 = Raise PermissionError
  ∧ (process_runway_configs r_prod_not_text "runway" []).1
    = SystemExit (JSON_ERROR_MSG "application-master-prod.json").
Proof.
  split.
  - apply (runway_unreadable_file r_prod_denied "runway"
             ["build"; "dev"; "stage"] "prod"
             ["prodp"; "stagepci"; "prods"; "stagesox"] PermissionError
             eq_refl ltac:(each_member k Hk) eq_refl).
    discriminate.
  - apply (runway_unreadable_file r_prod_not_text "runway"
             ["build"; "dev"; "stage"] "prod"
             ["prodp"; "stagepci"; "prods"; "stagesox"] UnicodeDecodeError
             eq_refl ltac:(each_member k Hk) eq_refl).
    discriminate.
Defined.

Lemma git_stops_at_malformed_witness :
  (process_git_configs (w_prod_content "WzE=") "forrest/core" token_path []).2
  = Open token_path
    :: map (Net (git_server ("s3cr3t" +:+ nl)))
         (GetProject "forrest/core"
          :: map (λ k, GetFile (JNum 7)
                         ("runway/application-master-" +:+ k +:+ ".json")
                         "master")
               (["build"; "dev"; "stage"] ++ ["prod"])).
Proof.
  apply (git_stops_at_malformed (w_prod_content "WzE=") "forrest/core"
           token_path ("s3cr3t" +:+ nl) (JNum 7)
           ["build"; "dev"; "stage"] "prod"
           ["prodp"; "stagepci"; "prods"; "stagesox"]
           eq_refl eq_refl eq_refl ltac:(each_member k Hk)).
  vm_compute. reflexivity.
Defined.

Lemma runway_exit_is_malformed_witness :
  ∃ name, (Malformed, name) ∈ runway_tracked r_prod_bad "runway"
          ∧ JSON_ERROR_MSG "application-master-prod.json" = JSON_ERROR_MSG name.
Proof.
  apply (runway_exit_is_malformed r_prod_bad "runway").
  vm_compute. reflexivity.
Defined.

Lemma git_exit_is_token_or_malformed_witness :
  (fs w_pipeline_bad token_path = inl FileNotFoundError
   ∧ JSON_ERROR_MSG "runway/pipeline.json"
     = "GitLab private token file missing: " +:+ token_path)
  ∨ ∃ text project_id name,
      fs w_pipeline_bad token_path = inr text ∧
      git_project w_pipeline_bad (git_server text) "forrest/core"
      = inr project_id ∧
      (Malformed, name) ∈ git_tracked w_pipeline_bad (git_server text) project_id ∧
      JSON_ERROR_MSG "runway/pipeline.json" = JSON_ERROR_MSG name.
Proof.
  apply (git_exit_is_token_or_malformed w_pipeline_bad "forrest/core" token_path).
  vm_compute. reflexivity.
Defined.

Lemma git_opens_only_token_file_witness : token_path = token_path.
Proof.
  apply (git_opens_only_token_file w_prod "forrest/core" token_path token_path).
  vm_compute. apply list_elem_of_here.
Defined.

Lemma git_commit_failure_witness :
  process_git_configs (no_branch w_prod) "forrest/core" token_path []
  = (Raise TypeError,
     Open token_path
     :: map (Net (git_server ("s3cr3t" +:+ nl)))
          (GetProject "forrest/core"
           :: map (λ env, GetFile (JNum 7)
                            ("runway/application-master-" +:+ env +:+ ".json")
                            "master")
                ["build"; "dev"; "stage"; "prod"; "prodp"; "stagepci";
                 "prods"; "stagesox"]
           ++ [GetFile (JNum 7) "runway/pipeline.json" "master";
               GetBranch (JNum 7) "master"])).
Proof.
  apply (git_commit_failure (no_branch w_prod) "forrest/core" token_path
           ("s3cr3t" +:+ nl) (JNum 7) TypeError eq_refl eq_refl);
    [ | reflexivity ].
  intros p Hp.
  apply (proj1 (forallb_forall (λ p, readable p.1)
                  (git_tracked (no_branch w_prod)
                     (git_server ("s3cr3t" +:+ nl)) (JNum 7))));
    [ vm_compute; reflexivity | by apply list_elem_of_In ].
Defined.

Lemma git_blob_without_content_witness :
  (process_git_configs
     (gitlab_world (inr ("s3cr3t" +:+ nl))
        (λ path, if String.eqb path "runway/application-master-prod.json"
                 then JObj {[ "file_name" := JStr "application-master-prod.json" ]}
                 else JBool false))
     "forrest/core" token_path []).1
  = Raise KeyError.
Proof.
  apply (proj1 (proj2
           (git_blob_without_content
              (gitlab_world (inr ("s3cr3t" +:+ nl))
                 (λ path,
                    if String.eqb path "runway/application-master-prod.json"
                    then JObj {[ "file_name"
                                 := JStr "application-master-prod.json" ]}
                    else JBool false))
              "forrest/core" token_path ("s3cr3t" +:+ nl) (JNum 7)
              ["build"; "dev"; "stage"] "prod"
              ["prodp"; "stagepci"; "prods"; "stagesox"]
              (JObj {[ "file_name" := JStr "application-master-prod.json" ]})
              eq_refl eq_refl eq_refl ltac:(each_member k Hk) eq_refl eq_refl))
           {[ "file_name" := JStr "application-master-prod.json" ]});
    reflexivity.
Defined.

Lemma git_and_runway_agree_witness :
  (∀ k, k ≠ "pipeline" → b_git !! k = b_runway !! k)
  ∧ ∃ m config_commit,
      master_commit (runway_over_git w_prod r_default)
        (git_server ("s3cr3t" +:+ nl)) (JNum 7) = inr config_commit ∧
      b_runway !! "pipeline" = Some (JObj m) ∧
      b_git !! "pipeline" = Some (JObj (<["config_commit" := config_commit]> m)).
Proof.
  apply (git_and_runway_agree (runway_over_git w_prod r_default)
           "forrest/core" token_path "runway" ("s3cr3t" +:+ nl) (JNum 7)
           b_git (git w_prod).2 b_runway (runway r_default).2);
    try (vm_compute; reflexivity).
  each_member env Henv.
Defined.

Lemma runway_files_opened_witness :
  (runway r_default).2
  = map (λ f, Open (path_join "runway" f))
      (map (λ env, "application-master-" +:+ env +:+ ".json")
         ["build"; "dev"; "stage"; "prod"; "prodp"; "stagepci"; "prods";
          "stagesox"]
       ++ ["pipeline.json"]).
Proof.
  apply (proj2 (runway_files_opened r_default "runway") b_runway).
  vm_compute. reflexivity.
Defined.

Lemma git_returns_iff_witness :
  ∃ b t, process_git_configs w_pipeline_found "forrest/core" token_path []
         = (Return b, t).
Proof.
  apply (proj2 (git_returns_iff w_pipeline_found "forrest/core" token_path)).
  exists ("s3cr3t" +:+ nl), (JNum 7), (JStr "abc123").
  split; [ reflexivity | ]. split; [ reflexivity | ].
  split; [ each_member env Henv | ].
  split; [ | reflexivity ].
  right. exists {[ "env" := JArr [JStr "stage"] ]}. vm_compute. reflexivity.
Defined.

Lemma runway_returns_iff_witness :
  ∃ b t, process_runway_configs r_commit "runway" [] = (Return b, t).
Proof.
  apply (proj2 (runway_returns_iff r_commit "runway")).
  intros p Hp.
  apply (proj1 (forallb_forall (λ p, readable p.1)
                  (runway_tracked r_commit "runway")));
    [ vm_compute; reflexivity | by apply list_elem_of_In ].
Defined.
